(** * pdf_refile: date resolution and placement of scanned PDF files

    A shallow embedding of [pdf_refile/main.py] and the properties of its
    date resolver ([parse_date], [extract_date_from_filename]), of its
    placement loop and of the top-level run ([check_dependencies],
    [process_files], [main]).

    Conventions of the embedding.
    - A Python [str] is a list of characters.  Characters are the code
      points below 256, so [\d] is [0-9] and the white space of
      [str.isspace] and of the regular expression class [\s] is the set
      listed in [isspace].
    - [None] is [None]; a raised exception is the [Raise] outcome of the
      run monad of section "The run".
    - The standard library functions the script calls ([re.match],
      [datetime.strptime], [strftime], [os.path.join], ...) are embedded
      from their CPython definitions, with [os.path] being [posixpath]. *)

From Stdlib Require Import Ascii String NArith ZArith.
From stdpp Require Import gmap strings list fin_maps pretty.

Open Scope string_scope.
Open Scope list_scope.

(** ** Python strings *)

Abbreviation str := (list ascii).

Coercion list_ascii_of_string : string >-> list.

Definition code (c : ascii) : N := N_of_ascii c.

Definition between (lo hi : N) (c : ascii) : bool :=
  ((lo <=? code c) && (code c <=? hi))%N.

Definition is_char (x c : ascii) : bool := (code c =? code x)%N.

(** [str.isdigit] restricted to one character, also the class [\d]. *)
Definition isdigit (c : ascii) : bool := between 48 57 c.

(** [A-Za-z]. *)
Definition isalpha (c : ascii) : bool := between 65 90 c || between 97 122 c.

(** [str.isspace] on one character, also the class [\s]:
    TAB LF VT FF CR, FS GS RS US, SPACE, NEL and NBSP. *)
Definition isspace (c : ascii) : bool :=
  between 9 13 c || between 28 32 c || is_char "133" c || is_char "160" c.

(** The line boundaries of [str.splitlines]: LF VT FF CR, FS GS RS, NEL. *)
Definition is_linebreak (c : ascii) : bool :=
  between 10 13 c || between 28 30 c || is_char "133" c.

Definition is_LF (c : ascii) : bool := is_char "010" c.
Definition is_CR (c : ascii) : bool := is_char "013" c.

(** [c.lower()] on the letters A-Z; the other characters the script meets
    in month names are unchanged. *)
Definition lower (c : ascii) : ascii :=
  if between 65 90 c then ascii_of_N (code c + 32) else c.

Fixpoint lstrip (s : str) : str :=
  match s with
  | c :: s' => if isspace c then lstrip s' else s
  | [] => []
  end.

Definition rstrip (s : str) : str := rev (lstrip (rev s)).

(** [s.strip()]. *)
Definition strip (s : str) : str := rstrip (lstrip s).

(** [s.splitlines()]: a CR LF pair is one boundary, and a boundary at the
    very end opens no further line. *)
Fixpoint splitlines_from (line : str) (s : str) : list str :=
  match s with
  | [] => match line with [] => [] | _ => [line] end
  | c :: s' =>
      if is_linebreak c then
        line :: match s' with
                | c' :: s'' =>
                    if is_CR c && is_LF c' then splitlines_from [] s''
                    else splitlines_from [] s'
                | [] => splitlines_from [] s'
                end
      else splitlines_from (line ++ [c]) s'
  end.

Definition splitlines (s : str) : list str := splitlines_from [] s.

(** [str(n)] for a natural number. *)
Definition str_of_N (n : N) : str := list_ascii_of_string (pretty n).

(** [int(s)] on a string of decimal digits with surrounding white space;
    [None] stands for [ValueError]. *)
Definition digit_value (c : ascii) : N := code c - 48.

Definition int (s : str) : option N :=
  match strip s with
  | [] => None
  | ds => if forallb isdigit ds
          then Some (fold_left (fun n c => 10 * n + digit_value c)%N ds 0%N)
          else None
  end.

(** Truth value of an optional string: [None] and [""] are false. *)
Definition truthy (o : option str) : bool :=
  match o with
  | Some (_ :: _) => true
  | _ => false
  end.

(** ** Regular expressions

    The fragment of [re] that the script and [_strptime] use, matched by
    backtracking in the order of the [re] module: alternatives left to
    right, [*] greedy.  [Star] is the repetition of a character class, which
    is all the patterns need. *)

Inductive regex : Type :=
| Eps
| Chr (p : ascii -> bool)
| Cat (r1 r2 : regex)
| Alt (r1 r2 : regex)
| Star (p : ascii -> bool)
| Grp (name : str) (r : regex)
| Bol
| Eol
| Eos.

Definition groups := list (str * str).

Fixpoint star {A} (p : ascii -> bool) (k : nat -> str -> option A)
    (pos : nat) (s : str) : option A :=
  match s with
  | c :: s' =>
      if p c then
        match star p k (S pos) s' with
        | Some x => Some x
        | None => k pos s
        end
      else k pos s
  | [] => k pos s
  end.

(** [rmatch r pos s g k]: match [r] at offset [pos], where [s] is the rest of
    the subject, then continue with [k]; [None] makes the matcher backtrack.
    [Eol] is the [$] of a pattern compiled without [re.MULTILINE]: the end
    of the subject, or just before a line feed that ends it.  [Eos] is [\Z],
    the end of the subject only. *)
Fixpoint rmatch {A} (r : regex) (pos : nat) (s : str) (g : groups)
    (k : nat -> str -> groups -> option A) : option A :=
  match r with
  | Eps => k pos s g
  | Chr p =>
      match s with
      | c :: s' => if p c then k (S pos) s' g else None
      | [] => None
      end
  | Cat r1 r2 => rmatch r1 pos s g (fun pos' s' g' => rmatch r2 pos' s' g' k)
  | Alt r1 r2 =>
      match rmatch r1 pos s g k with
      | Some x => Some x
      | None => rmatch r2 pos s g k
      end
  | Star p => star p (fun pos' s' => k pos' s' g) pos s
  | Grp name r =>
      rmatch r pos s g
        (fun pos' s' g' => k pos' s' ((name, take (pos' - pos) s) :: g'))
  | Bol => if (pos =? 0)%nat then k pos s g else None
  | Eol =>
      match s with
      | [] => k pos s g
      | [c] => if is_LF c then k pos s g else None
      | _ => None
      end
  | Eos =>
      match s with
      | [] => k pos s g
      | _ => None
      end
  end.

(** A match object: the offset where the match ends and the groups. *)
Record match_object := { m_end : nat; m_groups : groups }.

(** [re.match(r, s)]: the pattern is tried at offset 0 only. *)
Definition re_match (r : regex) (s : str) : option match_object :=
  rmatch r 0 s [] (fun pos _ g => Some {| m_end := pos; m_groups := g |}).

Fixpoint assoc (name : str) (g : groups) : option str :=
  match g with
  | (n, v) :: g' => if decide (n = name) then Some v else assoc name g'
  | [] => None
  end.

(** [m.group(name)]; a numbered group is named by its numeral. *)
Definition group (m : match_object) (name : str) : option str :=
  assoc name (m_groups m).

Fixpoint cats (rs : list regex) : regex :=
  match rs with
  | r :: rs' => Cat r (cats rs')
  | [] => Eps
  end.

Fixpoint alts (rs : list regex) : regex :=
  match rs with
  | r :: rs' => Alt r (alts rs')
  | [] => Chr (fun _ => false)
  end.

(** [r{n}], [r?], [p+], a literal character and a literal string. *)
Fixpoint rep (n : nat) (r : regex) : regex :=
  match n with
  | 0 => Eps
  | S n' => Cat r (rep n' r)
  end.

Definition opt (r : regex) : regex := Alt r Eps.
Definition plus (p : ascii -> bool) : regex := Cat (Chr p) (Star p).
Definition chr (c : ascii) : regex := Chr (is_char c).
Definition lit (s : str) : regex := cats (map chr s).

(** [.] without [re.DOTALL]: any character but a line feed. *)
Definition dot (c : ascii) : bool := negb (is_LF c).

(** ** Dates: [datetime.strptime] and [strftime]

    [_strptime] turns a format into a regular expression (class [TimeRE]),
    matches it against the whole text ignoring case, converts the groups and
    builds a [datetime], whose constructor checks the calendar. *)

Definition chr_ci (c : ascii) : regex := Chr (fun x => is_char (lower c) (lower x)).
Definition lit_ci (s : str) : regex := cats (map chr_ci s).

(** [LocaleTime.f_month] and [a_month] of the C locale. *)
Definition f_month : list str :=
  map list_ascii_of_string
    [""; "january"; "february"; "march"; "april"; "may"; "june"; "july";
     "august"; "september"; "october"; "november"; "december"].

Definition a_month : list str :=
  map list_ascii_of_string
    [""; "jan"; "feb"; "mar"; "apr"; "may"; "jun"; "jul"; "aug"; "sep";
     "oct"; "nov"; "dec"].

(** [sorted(to_convert, key=len, reverse=True)]: a stable insertion sort by
    decreasing length. *)
Fixpoint insert_by_len (x : str) (l : list str) : list str :=
  match l with
  | y :: l' => if (length y <? length x)%nat then x :: l
               else y :: insert_by_len x l'
  | [] => [x]
  end.

Definition sorted_by_len (l : list str) : list str :=
  fold_left (fun acc x => insert_by_len x acc) l [].

(** [TimeRE.__seqToRE(to_convert, directive)]. *)
Definition seqToRE (to_convert : list str) (directive : str) : regex :=
  Grp directive (alts (map lit_ci (sorted_by_len to_convert))).

(** The entries of [TimeRE] for the directives of [date_formats];
    [None] is the [KeyError] of any other directive.
    - [%d]: [3[0-1]|[1-2]\d|0[1-9]|[1-9]| [1-9]]
    - [%m]: [1[0-2]|0[1-9]|[1-9]]
    - [%Y]: [\d\d\d\d] *)
Definition TimeRE (directive : ascii) : option regex :=
  if is_char "d" directive then
    Some (Grp "d" (alts [Cat (chr "3") (Chr (between 48 49));
                         Cat (Chr (between 49 50)) (Chr isdigit);
                         Cat (chr "0") (Chr (between 49 57));
                         Chr (between 49 57);
                         Cat (chr " ") (Chr (between 49 57))]))
  else if is_char "m" directive then
    Some (Grp "m" (alts [Cat (chr "1") (Chr (between 48 50));
                         Cat (chr "0") (Chr (between 49 57));
                         Chr (between 49 57)]))
  else if is_char "Y" directive then
    Some (Grp "Y" (rep 4 (Chr isdigit)))
  else if is_char "B" directive then
    Some (seqToRE (tail f_month) "B")
  else if is_char "b" directive then
    Some (seqToRE (tail a_month) "b")
  else None.

(** [TimeRE.pattern(format)]: a run of white space becomes [\s+], a
    directive its entry, any other character itself.  [in_space] tells that
    the previous character of the format was white space.  [None] is the
    [KeyError] or [IndexError] that [_strptime] turns into [ValueError]. *)
Fixpoint pattern (in_space : bool) (format : str) : option regex :=
  match format with
  | [] => Some Eps
  | c :: rest =>
      if isspace c then
        if in_space then pattern true rest
        else Cat (plus isspace) <$> pattern true rest
      else if is_char "%" c then
        match rest with
        | d :: rest' =>
            match TimeRE d, pattern false rest' with
            | Some r, Some r' => Some (Cat r r')
            | _, _ => None
            end
        | [] => None
        end
      else Cat (chr_ci c) <$> pattern false rest
  end.

Record date := { year : N; month : N; day : N }.

(** [datetime._is_leap] and [datetime._days_in_month]. *)
Definition is_leap (y : N) : bool :=
  ((y mod 4 =? 0) && (negb (y mod 100 =? 0) || (y mod 400 =? 0)))%N.

Definition days_in_month (y m : N) : N :=
  if (m =? 2)%N then (if is_leap y then 29 else 28)%N
  else if ((m =? 4) || (m =? 6) || (m =? 9) || (m =? 11))%N then 30%N
  else 31%N.

(** The constructor [datetime.date(year, month, day)], with the checks of
    [_check_date_fields]; [None] is its [ValueError]. *)
Definition datetime_date (y m d : N) : option date :=
  if ((1 <=? y) && (y <=? 9999) && (1 <=? m) && (m <=? 12)
      && (1 <=? d) && (d <=? days_in_month y m))%N
  then Some {| year := y; month := m; day := d |}
  else None.

Fixpoint index_of (x : str) (l : list str) : option nat :=
  match l with
  | y :: l' => if decide (y = x) then Some 0%nat else S <$> index_of x l'
  | [] => None
  end.

(** The month of the match: group [B], [b] or [m], in the order in which
    [_strptime] meets them; no such group leaves the default 1. *)
Definition found_month (found : match_object) : option N :=
  match group found "B" with
  | Some v => N.of_nat <$> index_of (map lower v) f_month
  | None =>
      match group found "b" with
      | Some v => N.of_nat <$> index_of (map lower v) a_month
      | None =>
          match group found "m" with
          | Some v => int v
          | None => Some 1%N
          end
      end
  end.

Definition found_year (found : match_object) : option N :=
  match group found "Y" with
  | Some v => int v
  | None => Some 1900%N
  end.

Definition found_day (found : match_object) : option N :=
  match group found "d" with
  | Some v => int v
  | None => Some 1%N
  end.

(** [datetime.strptime(data_string, format)]; [None] is [ValueError]: a bad
    format, no match, unconverted data after the match, or a date that is
    not in the calendar. *)
Definition strptime (data_string format : str) : option date :=
  format_regex ← pattern false format;
  found ← re_match format_regex data_string;
  if (length data_string =? m_end found)%nat then
    y ← found_year found;
    m ← found_month found;
    d ← found_day found;
    datetime_date y m d
  else None.

(** [s.zfill(width)]. *)
Definition zfill (width : nat) (s : str) : str :=
  replicate (width - length s) ("0"%char) ++ s.

(** [d.strftime("%Y%m%d")].  [%m] and [%d] are two digits.  [%Y] is left to
    the C library by CPython: [pad_year] tells whether it pads a year
    below 1000 with zeros to four digits (macOS, Windows) or prints it as
    it is (glibc). *)
Definition strftime_Ymd (pad_year : bool) (d : date) : str :=
  (if pad_year then zfill 4 (str_of_N (year d)) else str_of_N (year d))
  ++ zfill 2 (str_of_N (month d)) ++ zfill 2 (str_of_N (day d)).

(** ** The date resolver of the script *)

Definition date_formats : list str :=
  map list_ascii_of_string
    ["%Y/%m/%d"; "%Y-%m-%d"; "%Y.%m.%d";
     "%d/%m/%Y"; "%d-%m-%Y"; "%d.%m.%Y";
     "%B %d, %Y"; "%b %d, %Y"].

(** The [for date_format in date_formats] loop of [parse_date]: the first
    format whose [strptime] does not raise returns. *)
Fixpoint try_formats (pad_year : bool) (line : str) (formats : list str)
    : option str :=
  match formats with
  | date_format :: formats' =>
      match strptime line date_format with
      | Some d => Some (strftime_Ymd pad_year d)
      | None => try_formats pad_year line formats'
      end
  | [] => None
  end.

Definition parse_date (pad_year : bool) (line : str) : option str :=
  let line := strip line in
  try_formats pad_year line date_formats.

(** [^([0-9]{8})[_-].*\.pdf$] *)
Definition prefix_re : regex :=
  cats [Bol; Grp "1" (rep 8 (Chr isdigit));
        Chr (fun c => is_char "_" c || is_char "-" c);
        Star dot; lit ".pdf"; Eol].

(** [.*\s-\s.*\s-\s([A-Za-z]+\s[0-9]{1,2},\s[0-9]{4})\.pdf$] *)
Definition descriptive_re : regex :=
  cats [Star dot; Chr isspace; chr "-"; Chr isspace;
        Star dot; Chr isspace; chr "-"; Chr isspace;
        Grp "1" (cats [plus isalpha; Chr isspace;
                       Chr isdigit; opt (Chr isdigit); chr ",";
                       Chr isspace; rep 4 (Chr isdigit)]);
        lit ".pdf"; Eol].

Definition extract_date_from_filename (pad_year : bool) (filename : str)
    : option str :=
  match re_match prefix_re filename with
  | Some m => group m "1"
  | None =>
      match re_match descriptive_re filename with
      | Some m => v ← group m "1"; parse_date pad_year v
      | None => None
      end
  end.

(** ** Paths: [os.path] on POSIX *)

(** [s.rfind(c)]: the highest index of [c] in [s], or -1. *)
Fixpoint rfind_from (c : ascii) (s : str) (i last : Z) : Z :=
  match s with
  | x :: s' => rfind_from c s' (i + 1) (if is_char c x then i else last)
  | [] => last
  end.

Definition rfind (s : str) (c : ascii) : Z := rfind_from c s 0 (-1).

(** [s[i:j]] for indices that are not negative. *)
Definition slice (i j : Z) (s : str) : str :=
  take (Z.to_nat j - Z.to_nat i) (drop (Z.to_nat i) s).

Definition startswith (s : str) (c : ascii) : bool :=
  match s with
  | x :: _ => is_char c x
  | [] => false
  end.

Definition endswith (s : str) (c : ascii) : bool := startswith (rev s) c.

(** One round of the loop of [posixpath.join]. *)
Definition join_step (path b : str) : str :=
  if startswith b "/" then b
  else if match path with [] => true | _ => endswith path "/" end
       then path ++ b
       else path ++ "/" ++ b.

(** [os.path.join(a, *p)]. *)
Definition os_path_join (a : str) (p : list str) : str :=
  fold_left join_step p a.

(** [os.path.basename(p)]. *)
Definition basename (p : str) : str :=
  let i := (rfind p "/" + 1)%Z in
  drop (Z.to_nat i) p.

(** [os.path.splitext(p)]: the extension starts at the last dot of the last
    component, unless only dots come before it in that component. *)
Definition splitext (p : str) : str * str :=
  let sepIndex := rfind p "/" in
  let dotIndex := rfind p "." in
  if (sepIndex <? dotIndex)%Z then
    if forallb (is_char ".") (slice (sepIndex + 1) dotIndex p)
    then (p, [])
    else (take (Z.to_nat dotIndex) p, drop (Z.to_nat dotIndex) p)
  else (p, []).

(** ** The run: files, console, external tools

    The file system is a finite map from path strings to the kind of node
    they name.  What the script cannot decide by itself is in [env]: the
    tools on the execution path, the entries a directory scan meets, what
    the two external programs answer, creation dates. *)

Inductive kind := File | Dir.

#[export] Instance kind_eq_dec : EqDecision kind.
Proof. solve_decision. Defined.

Record completed_process := { returncode : Z; stdout : str }.

Record env := {
  which : str -> bool;
  platform : str;
  pad_year : bool;
  getcwd : str;
  mkdtemp : str;
  scandir : str -> bool -> list str;
  ocrmypdf : str -> Z;
  pdftotext : str -> completed_process;
  st_ctime : str -> date
}.

Inductive event :=
| Stdout (msg : str)
| Stderr (msg : str)
| Ocrmypdf (input output : str) (status : Z)
| Pdftotext (input : str)
| Stat (path : str)
| Input (prompt : str)
| Open (command : list str)
| Makedirs (path : str)
| Move (src dst : str)
| Remove (path : str)
| Rmtree (path : str).

(** The module-level variables that [main] assigns. *)
Record globals := {
  DEBUG : bool; INFO : bool; WARNING : bool; ERROR : bool; DRY_RUN : bool
}.

Definition initial_globals : globals :=
  {| DEBUG := false; INFO := true; WARNING := true; ERROR := true;
     DRY_RUN := false |}.

Record world := {
  vars : globals;
  fs : gmap str kind;
  stdin : list str;
  trace : list event
}.

Inductive exn :=
| SystemExit (status : Z)
| CalledProcessError (status : Z)
| EOFError
| OSError.

(** [Hang] is a loop that never leaves. *)
Inductive outcome (A : Type) :=
| Ok (a : A)
| Raise (e : exn)
| Hang.
Arguments Ok {A} a.
Arguments Raise {A} e.
Arguments Hang {A}.

Definition run (A : Type) : Type := world -> outcome A * world.

#[export] Instance run_ret : MRet run := fun A a w => (Ok a, w).

#[export] Instance run_bind : MBind run := fun A B f m w =>
  match m w with
  | (Ok a, w') => f a w'
  | (Raise e, w') => (Raise e, w')
  | (Hang, w') => (Hang, w')
  end.

Definition raise {A} (e : exn) : run A := fun w => (Raise e, w).

Definition hang {A} : run A := fun w => (Hang, w).

(** [try: body finally: final]. *)
Definition try_finally {A} (body : run A) (final : run unit) : run A :=
  fun w =>
    match body w with
    | (Hang, w') => (Hang, w')
    | (o, w') =>
        match final w' with
        | (Ok _, w'') => (o, w'')
        | (Raise e, w'') => (Raise e, w'')
        | (Hang, w'') => (Hang, w'')
        end
    end.

(** The world after one more event. *)
Definition log (w : world) (e : event) : world :=
  {| vars := vars w; fs := fs w; stdin := stdin w; trace := trace w ++ [e] |}.

Definition emit (e : event) : run unit := fun w => (Ok tt, log w e).

Definition get_vars : run globals := fun w => (Ok (vars w), w).

Definition set_vars (v : globals) : run unit := fun w =>
  (Ok tt, {| vars := v; fs := fs w; stdin := stdin w; trace := trace w |}).

Definition get_fs : run (gmap str kind) := fun w => (Ok (fs w), w).

Definition get_stdin : run (list str) := fun w => (Ok (stdin w), w).

Definition set_fs (f : gmap str kind) : run unit := fun w =>
  (Ok tt, {| vars := vars w; fs := f; stdin := stdin w; trace := trace w |}).

Definition debug_print (msg : str) : run unit :=
  v ← get_vars;
  if DEBUG v then emit (Stdout ("[DEBUG] " ++ msg)) else mret tt.

Definition info_print (msg : str) : run unit :=
  v ← get_vars;
  if INFO v then emit (Stdout ("[INFO] " ++ msg)) else mret tt.

Definition warning_print (msg : str) : run unit :=
  v ← get_vars;
  if WARNING v then emit (Stderr ("[WARNING] " ++ msg)) else mret tt.

Definition error_print (msg : str) : run unit :=
  v ← get_vars;
  if ERROR v then emit (Stderr ("[ERROR] " ++ msg)) else mret tt.

Definition exit_with_error {A} (msg : str) (exit_code : Z) : run A :=
  error_print msg;; raise (SystemExit exit_code).

(** The [for util in ...] loop of [check_dependencies]. *)
Fixpoint check_utils (E : env) (utils : list str) : run unit :=
  match utils with
  | util :: utils' =>
      (if which E util then mret tt
       else exit_with_error
              ("The " ++ util
               ++ " utility is required but it's not installed. Aborting.") 1);;
      check_utils E utils'
  | [] => mret tt
  end.

Definition check_dependencies (E : env) : run unit :=
  check_utils E (map list_ascii_of_string ["ocrmypdf"; "pdftotext"]).

(** *** File system operations *)

(** [os.path.exists(p)]. *)
Definition exists_ (f : gmap str kind) (p : str) : bool :=
  bool_decide (is_Some (f !! p)).

(** The proper prefixes of a path that end before a separator: the
    directories above it. *)
Fixpoint parents_from (seen : str) (p : str) : list str :=
  match p with
  | c :: p' =>
      (if is_char "/" c && negb (bool_decide (seen = [])) then [seen] else [])
      ++ parents_from (seen ++ [c]) p'
  | [] => []
  end.

Definition parents (p : str) : list str := parents_from [] p.

Definition mkdir (f : gmap str kind) (p : str) : gmap str kind :=
  match f !! p with
  | Some _ => f
  | None => <[p := Dir]> f
  end.

(** [os.makedirs(p, exist_ok=True)]: the directories above [p] and [p]
    itself come to exist; a regular file in the way is an [OSError]. *)
Definition makedirs (p : str) : run unit :=
  emit (Makedirs p);;
  f ← get_fs;
  if forallb (fun q => negb (bool_decide (f !! q = Some File))) (parents p ++ [p])
  then set_fs (foldl mkdir f (parents p ++ [p]))
  else raise OSError.

(** [shutil.move(src, dst)] onto a free name. *)
Definition shutil_move (src dst : str) : run unit :=
  emit (Move src dst);;
  f ← get_fs;
  match f !! src with
  | Some k => set_fs (<[dst := k]> (delete src f))
  | None => raise OSError
  end.

(** [os.remove(p)]. *)
Definition os_remove (p : str) : run unit :=
  emit (Remove p);;
  f ← get_fs;
  match f !! p with
  | Some File => set_fs (delete p f)
  | _ => raise OSError
  end.

Definition is_under (d p : str) : bool :=
  bool_decide (p = d) || bool_decide (d ++ "/" `prefix_of` p).

(** [shutil.rmtree(d)]. *)
Definition shutil_rmtree (d : str) : run unit :=
  emit (Rmtree d);;
  f ← get_fs;
  set_fs (filter (fun kv => is_under d kv.1 = false) f).

(** [tempfile.mkdtemp()]. *)
Definition tempfile_mkdtemp (E : env) : run str :=
  f ← get_fs;
  set_fs (<[mkdtemp E := Dir]> f);;
  mret (mkdtemp E).

(** [subprocess.run(['ocrmypdf', '--skip-text', '--output-type', 'pdf',
    '--quiet', input, output], check=True)]: a successful run leaves the
    searchable copy at [output], any other exit status raises. *)
Definition run_ocrmypdf (E : env) (input output : str) : run unit :=
  let status := ocrmypdf E input in
  emit (Ocrmypdf input output status);;
  if (status =? 0)%Z then
    f ← get_fs; set_fs (<[output := File]> f)
  else raise (CalledProcessError status).

(** [subprocess.run(['pdftotext', input, '-'], capture_output=True,
    text=True)]: no [check], so the exit status is only recorded. *)
Definition run_pdftotext (E : env) (input : str) : run completed_process :=
  emit (Pdftotext input);;
  mret (pdftotext E input).

(** [input(prompt)]: the next line of standard input, [EOFError] at its
    end. *)
Definition input (prompt : str) : run str := fun w =>
  match stdin w with
  | line :: rest =>
      (Ok line, {| vars := vars w; fs := fs w; stdin := rest;
                   trace := trace w ++ [Input prompt] |})
  | [] => (Raise EOFError, log w (Input prompt))
  end.

(** *** Enumeration *)

(** [fnmatch.translate("*.pdf")], that is [(?s:.*\.pdf)\Z]: under [(?s)]
    the dot is any character. *)
Definition glob_re : regex := cats [Star (fun _ => true); lit ".pdf"; Eos].

Definition fnmatch_pdf (name : str) : bool :=
  match re_match glob_re name with
  | Some _ => true
  | None => false
  end.

(** [Path(scan_dir).glob("*.pdf")] and [rglob]: of the entries that the
    scan meets, those whose name matches. *)
Definition glob (E : env) (scan_dir : str) (recursive : bool) : list str :=
  filter (fun p => fnmatch_pdf (basename p) = true) (scandir E scan_dir recursive).

(** *** [process_files] *)

(** What an f-string prints for a value that may be [None]. *)
Definition format_opt (o : option str) : str :=
  match o with
  | Some s => s
  | None => "None"
  end.

(** The [for line in result.stdout.splitlines()] loop: [date_stamp] is
    assigned at every line and the loop breaks at the first true one. *)
Fixpoint scan_lines (E : env) (date_stamp : option str) (lines : list str)
    : run (option str) :=
  match lines with
  | line :: lines' =>
      let date_stamp := parse_date (pad_year E) line in
      if truthy date_stamp then
        debug_print ("Date stamp extracted from OCR text: "
                     ++ format_opt date_stamp);;
        mret date_stamp
      else scan_lines E date_stamp lines'
  | [] => mret date_stamp
  end.

(** The command that opens a file, by [sys.platform]. *)
Definition open_command (E : env) (file_path_str : str) : option (list str) :=
  if bool_decide (platform E = "darwin") then
    Some [("open" : str); file_path_str]
  else if bool_decide (("linux" : str) `prefix_of` platform E) then
    Some [("xdg-open" : str); file_path_str]
  else if bool_decide (platform E = "win32") then
    Some [("start" : str); ("" : str); file_path_str]
  else None.

Definition prompt_text (file_path_str suggested_date : str) : str :=
  "Please validate/enter the date for " ++ file_path_str
  ++ " (YYYYMMDD) [Enter to accept '" ++ suggested_date
  ++ "', 'o' to open]: ".

(** The [while True] loop around [input].  Every round takes a line of
    standard input, so [fuel] rounds beyond the first are enough when
    [fuel] is the number of pending lines. *)
Fixpoint prompt_loop (E : env) (file_path_str suggested_date : str)
    (fuel : nat) : run str :=
  user_input ← input (prompt_text file_path_str suggested_date);
  if bool_decide (map lower user_input = "o") then
    (match open_command E file_path_str with
     | Some command => emit (Open command)
     | None => emit (Stdout "Unsupported platform for opening files")
     end);;
    match fuel with
    | S fuel' => prompt_loop E file_path_str suggested_date fuel'
    | O => hang
    end
  else
    mret (match user_input with [] => suggested_date | _ => user_input end).

Definition ask_date (E : env) (file_path_str : str) : run str :=
  emit (Stat file_path_str);;
  let suggested_date := strftime_Ymd (pad_year E) (st_ctime E file_path_str) in
  pending ← get_stdin;
  prompt_loop E file_path_str suggested_date (length pending).

(** The [while os.path.exists(dest_file)] loop, for at most [fuel] tests. *)
Fixpoint while_exists (fuel : nat) (f : gmap str kind)
    (dest_folder stem dest_file : str) (counter : N) : option str :=
  match fuel with
  | S fuel' =>
      if exists_ f dest_file then
        while_exists fuel' f dest_folder stem
          (os_path_join dest_folder
             [stem ++ "_" ++ str_of_N counter ++ ".pdf"])
          (counter + 1)%N
      else Some dest_file
  | O => None
  end.

(** The placement of one file, from [year, month, day = ...] on.  The
    loop is given more rounds than there are nodes in the file system. *)
Definition place (dest_dir file_path_str ocr_file date_stamp : str)
    : run unit :=
  let year := slice 0 4 date_stamp in
  let month := slice 4 6 date_stamp in
  let day := slice 6 8 date_stamp in
  let dest_folder := os_path_join dest_dir [year; month; day] in
  let dest_file := os_path_join dest_folder [basename file_path_str] in
  makedirs dest_folder;;
  f ← get_fs;
  match while_exists (S (S (size f))) f dest_folder
          (splitext (basename file_path_str)).1 dest_file 1 with
  | None => hang
  | Some dest_file =>
      info_print ("Moving processed file to " ++ dest_file);;
      v ← get_vars;
      if DRY_RUN v then mret tt
      else shutil_move ocr_file dest_file;; os_remove file_path_str
  end.

(** The date of one file, once its searchable copy exists: file name,
    then extracted text, then the user. *)
Definition resolve_date (E : env) (file_path_str ocr_file : str) : run str :=
  let date_stamp :=
    extract_date_from_filename (pad_year E) (basename file_path_str) in
  date_stamp ←
    (if truthy date_stamp then
       debug_print ("Date stamp extracted from file name: "
                    ++ format_opt date_stamp);;
       mret date_stamp
     else
       result ← run_pdftotext E ocr_file;
       scan_lines E date_stamp (splitlines (stdout result)));
  match date_stamp with
  | Some (c :: s) => mret (c :: s)
  | _ => ask_date E file_path_str
  end.

(** The body of the [for file_path in files] loop. *)
Definition process_file (E : env) (tmp_dir dest_dir file_path_str : str)
    : run unit :=
  info_print ("Processing " ++ file_path_str ++ "...");;
  let ocr_file := os_path_join tmp_dir [basename file_path_str] in
  run_ocrmypdf E file_path_str ocr_file;;
  date_stamp ← resolve_date E file_path_str ocr_file;
  place dest_dir file_path_str ocr_file date_stamp.

Fixpoint for_each {A} (l : list A) (body : A -> run unit) : run unit :=
  match l with
  | x :: l' => body x;; for_each l' body
  | [] => mret tt
  end.

Definition process_files (E : env) (scan_dir dest_dir : str)
    (recursive : bool) : run unit :=
  tmp_dir ← tempfile_mkdtemp E;
  try_finally
    (let files := glob E scan_dir recursive in
     for_each files (process_file E tmp_dir dest_dir))
    (shutil_rmtree tmp_dir).

(** *** [main] *)

Inductive level := info | warning | error | debug.

(** The namespace that [parser.parse_args()] returns. *)
Record args := {
  scan_dir : option str;
  dest_dir : str;
  log_level : level;
  dry_run : bool
}.

Definition main (E : env) (a : args) : run unit :=
  set_vars
    match log_level a with
    | info =>
        {| DEBUG := false; INFO := true; WARNING := true; ERROR := true;
           DRY_RUN := dry_run a |}
    | warning =>
        {| DEBUG := false; INFO := false; WARNING := true; ERROR := true;
           DRY_RUN := dry_run a |}
    | error =>
        {| DEBUG := false; INFO := false; WARNING := false; ERROR := true;
           DRY_RUN := dry_run a |}
    | debug =>
        {| DEBUG := true; INFO := true; WARNING := true; ERROR := true;
           DRY_RUN := dry_run a |}
    end;;
  let scan := match scan_dir a with
              | Some (c :: s) => c :: s
              | _ => getcwd E
              end in
  let recursive := match scan_dir a with Some _ => true | None => false end in
  check_dependencies E;;
  process_files E scan (dest_dir a) recursive.

(** The exit status of the interpreter: 0 after a normal return, the
    argument of [sys.exit], 1 after any other exception. *)
Definition exit_status {A} (o : outcome A) : option Z :=
  match o with
  | Ok _ => Some 0%Z
  | Raise (SystemExit status) => Some status
  | Raise _ => Some 1%Z
  | Hang => None
  end.

(** * Properties *)

(** ** What a pattern matches

    [den r pos u rest g g']: [r] can match the text [u] at offset [pos] when
    [rest] follows, turning the groups [g] into [g'].  The matcher finds
    only such matches, and finds one whenever one exists that the
    continuation accepts. *)

Fixpoint den (r : regex) (pos : nat) (u rest : str) (g g' : groups) : Prop :=
  match r with
  | Eps => u = [] /\ g' = g
  | Chr p => (exists c, u = [c] /\ p c = true) /\ g' = g
  | Cat r1 r2 =>
      exists u1 u2 g1,
        u = u1 ++ u2 /\ den r1 pos u1 (u2 ++ rest) g g1
        /\ den r2 (pos + length u1) u2 rest g1 g'
  | Alt r1 r2 => den r1 pos u rest g g' \/ den r2 pos u rest g g'
  | Star p => forallb p u = true /\ g' = g
  | Grp name r => exists g1, den r pos u rest g g1 /\ g' = (name, u) :: g1
  | Bol => pos = 0 /\ u = [] /\ g' = g
  | Eol => u = [] /\ g' = g /\ (rest = [] \/ exists c, rest = [c] /\ is_LF c = true)
  | Eos => u = [] /\ g' = g /\ rest = []
  end.

Lemma star_sound {A} p (k : nat -> str -> option A) s pos x :
  star p k pos s = Some x ->
  exists u rest, s = u ++ rest /\ forallb p u = true
                 /\ k (pos + length u) rest = Some x.
Proof.
  revert pos. induction s as [|c s IH]; intros pos H; simpl in H.
  - exists [], []. simpl. rewrite Nat.add_0_r. auto.
  - destruct (p c) eqn:Hc.
    + destruct (star p k (S pos) s) as [y|] eqn:Hs.
      * injection H as ->. apply IH in Hs as (u & rest & -> & Hu & Hk).
        exists (c :: u), rest. simpl. rewrite Hc, Hu.
        replace (pos + S (length u)) with (S pos + length u) by lia. auto.
      * exists [], (c :: s). simpl. rewrite Nat.add_0_r. auto.
    + exists [], (c :: s). simpl. rewrite Nat.add_0_r. auto.
Qed.

Lemma star_complete {A} p (k : nat -> str -> option A) u rest pos :
  forallb p u = true -> is_Some (k (pos + length u) rest) ->
  is_Some (star p k pos (u ++ rest)).
Proof.
  revert pos. induction u as [|c u IH]; intros pos Hu Hk; simpl in *.
  - rewrite Nat.add_0_r in Hk. destruct rest as [|c s]; simpl; [done|].
    destruct (p c); [|done]. destruct (star p k (S pos) s); [eauto|done].
  - apply andb_true_iff in Hu as [-> Hu].
    replace (pos + S (length u)) with (S pos + length u) in Hk by lia.
    destruct (IH (S pos) Hu Hk) as [y ->]. eauto.
Qed.

Lemma rmatch_sound {A} r : forall pos s g (k : nat -> str -> groups -> option A) x,
  rmatch r pos s g k = Some x ->
  exists u rest g', s = u ++ rest /\ den r pos u rest g g'
                    /\ k (pos + length u) rest g' = Some x.
Proof.
  induction r as [|p|r1 IH1 r2 IH2|r1 IH1 r2 IH2|p|name r IH| | |];
    intros pos s g k x H; simpl in H.
  - exists [], s, g. simpl. rewrite Nat.add_0_r. auto.
  - destruct s as [|c s]; [done|]. destruct (p c) eqn:Hc; [|done].
    exists [c], s, g. simpl. replace (pos + 1) with (S pos) by lia. eauto 6.
  - apply IH1 in H as (u1 & rest1 & g1 & -> & H1 & H).
    apply IH2 in H as (u2 & rest & g' & -> & H2 & H).
    exists (u1 ++ u2), rest, g'. rewrite length_app, Nat.add_assoc, <- app_assoc.
    split; [done|]. split; [|done]. simpl. eauto 8.
  - destruct (rmatch r1 pos s g k) as [y|] eqn:H1.
    + injection H as ->. apply IH1 in H1 as (u & rest & g' & ? & ? & ?).
      exists u, rest, g'. simpl. auto.
    + apply IH2 in H as (u & rest & g' & ? & ? & ?).
      exists u, rest, g'. simpl. auto.
  - apply star_sound in H as (u & rest & -> & Hu & H).
    exists u, rest, g. simpl. auto.
  - apply IH in H as (u & rest & g' & -> & H1 & H).
    replace (pos + length u - pos) with (length u) in H by lia.
    rewrite take_app_length in H.
    exists u, rest, ((name, u) :: g'). simpl. eauto.
  - destruct (pos =? 0)%nat eqn:Hp; [|done]. apply Nat.eqb_eq in Hp.
    exists [], s, g. simpl. rewrite Nat.add_0_r. auto.
  - destruct s as [|c [|c' s]]; [| |done].
    + exists [], [], g. simpl. rewrite Nat.add_0_r. eauto 10.
    + destruct (is_LF c) eqn:Hc; [|done].
      exists [], [c], g. simpl. rewrite Nat.add_0_r. eauto 8.
  - destruct s; [|done]. exists [], [], g. simpl. rewrite Nat.add_0_r. auto.
Qed.

Lemma rmatch_complete {A} r : forall pos u rest g g' (k : nat -> str -> groups -> option A),
  den r pos u rest g g' -> is_Some (k (pos + length u) rest g') ->
  is_Some (rmatch r pos (u ++ rest) g k).
Proof.
  induction r as [|p|r1 IH1 r2 IH2|r1 IH1 r2 IH2|p|name r IH| | |];
    intros pos u rest g g' k H Hk; simpl in H.
  - destruct H as [-> ->]. simpl in *. by rewrite Nat.add_0_r in Hk.
  - destruct H as [(c & -> & Hc) ->]. simpl in *. rewrite Hc.
    by replace (pos + 1) with (S pos) in Hk by lia.
  - destruct H as (u1 & u2 & g1 & -> & H1 & H2). simpl.
    rewrite <- app_assoc. eapply IH1; [exact H1|].
    eapply IH2; [exact H2|]. by rewrite length_app, Nat.add_assoc in Hk.
  - simpl. destruct (rmatch r1 pos (u ++ rest) g k) eqn:H1; [eauto|].
    destruct H as [H|H]; [|by eapply IH2].
    eapply IH1 in H; [|exact Hk]. rewrite H1 in H. by destruct H.
  - destruct H as [Hu ->]. simpl. by apply star_complete.
  - destruct H as (g1 & H & ->). simpl. eapply IH; [exact H|].
    replace (pos + length u - pos) with (length u) by lia.
    by rewrite take_app_length.
  - destruct H as (-> & -> & ->). simpl in *. done.
  - destruct H as (-> & -> & Hrest). simpl in *. rewrite Nat.add_0_r in Hk.
    destruct Hrest as [->|(c & -> & Hc)]; [done|]. by rewrite Hc.
  - destruct H as (-> & -> & ->). simpl in *. by rewrite Nat.add_0_r in Hk.
Qed.

(** [re.match] finds a match exactly when the pattern has one at the start
    of the subject, and reports one of them. *)
Lemma re_match_sound r s m :
  re_match r s = Some m ->
  exists u rest, s = u ++ rest /\ den r 0 u rest [] (m_groups m)
                 /\ m_end m = length u.
Proof.
  intros H. apply rmatch_sound in H as (u & rest & g' & -> & H & Hm).
  injection Hm as <-. exists u, rest. auto.
Qed.

Lemma re_match_complete r u rest g' :
  den r 0 u rest [] g' -> is_Some (re_match r (u ++ rest)).
Proof. intros H. eapply rmatch_complete; [exact H|]. eauto. Qed.

(** ** The two file name patterns *)

Lemma is_char_true c x : is_char c x = true <-> x = c.
Proof.
  unfold is_char, code. rewrite N.eqb_eq. split; [|by intros ->].
  intros H. by rewrite <- (ascii_N_embedding x), H, ascii_N_embedding.
Qed.

Lemma den_rep_chr n p : forall pos u rest g g',
  den (rep n (Chr p)) pos u rest g g'
  <-> length u = n /\ forallb p u = true /\ g' = g.
Proof.
  induction n as [|n IH]; intros pos u rest g g'; simpl.
  - split; [intros [-> ->]; auto|]. intros (Hu & _ & ->).
    by destruct u.
  - split.
    + intros (u1 & u2 & g1 & -> & [(c & -> & Hc) ->] & H).
      apply IH in H as (<- & Hu & ->). simpl. by rewrite Hc, Hu.
    + intros (Hu & Hp & ->). destruct u as [|c u]; [done|].
      simpl in *. apply andb_true_iff in Hp as [Hc Hp].
      exists [c], u, g. split; [done|]. split; [eauto|].
      apply IH. split; [lia|done].
Qed.

Lemma den_lit s : forall pos u rest g g',
  den (lit s) pos u rest g g' <-> u = s /\ g' = g.
Proof.
  unfold lit. induction s as [|c s IH]; intros pos u rest g g'; simpl.
  - done.
  - split.
    + intros (u1 & u2 & g1 & -> & [(x & -> & Hx) ->] & H).
      apply is_char_true in Hx as ->. by apply IH in H as [-> ->].
    + intros [-> ->]. exists [c], s, g. split; [done|].
      split; [split; [|done]; exists c; split; [done|by apply is_char_true]|].
      by apply IH.
Qed.

Definition is_sep (c : ascii) : bool := is_char "_" c || is_char "-" c.

(** The subjects that [^([0-9]{8})[_-].*\.pdf$] matches, and what group 1
    is then. *)
Lemma prefix_re_den u rest g' :
  den prefix_re 0 u rest [] g' <->
  exists d sep mid,
    u = d ++ sep :: mid ++ ".pdf" /\ length d = 8 /\ forallb isdigit d = true
    /\ is_sep sep = true /\ forallb dot mid = true
    /\ (rest = [] \/ exists c, rest = [c] /\ is_LF c = true)
    /\ g' = [(("1" : str), d)].
Proof.
  unfold prefix_re. cbn [den cats]. split.
  - intros H.
    destruct H as (u0 & u1 & g0 & -> & (_ & -> & ->) & H).
    destruct H as (d & u2 & g1 & -> & (g2 & Hd & ->) & H).
    apply (den_rep_chr 8) in Hd as (Hlen & Hd & ->).
    destruct H as (u3 & u4 & g3 & -> & [(sep & -> & Hsep) ->] & H).
    destruct H as (mid & u5 & g4 & -> & [Hmid ->] & H).
    destruct H as (u6 & u7 & g5 & -> & Hlit & H).
    apply den_lit in Hlit as [-> ->].
    destruct H as (u8 & u9 & g6 & -> & (-> & -> & Hrest) & -> & ->).
    exists d, sep, mid. simpl in *. unfold is_sep. done.
  - intros (d & sep & mid & -> & Hlen & Hd & Hsep & Hmid & Hrest & ->).
    exists [], (d ++ sep :: mid ++ ".pdf"), []. split; [done|]. split; [done|].
    exists d, (sep :: mid ++ ".pdf"), [(("1" : str), d)]. split; [done|].
    split; [exists []; split; [|done]; by apply (den_rep_chr 8)|].
    exists [sep], (mid ++ ".pdf"), [(("1" : str), d)]. split; [done|].
    split; [split; eauto|].
    exists mid, (list_ascii_of_string ".pdf"), [(("1" : str), d)].
    split; [done|]. split; [done|].
    exists (list_ascii_of_string ".pdf"), [], [(("1" : str), d)].
    split; [by rewrite app_nil_r|]. split; [by apply den_lit|].
    exists [], [], [(("1" : str), d)]. done.
Qed.

(** ** Reasoning about runs

    [keeps Iv P m]: [m] preserves the property [Iv] of the global variables
    and only adds events that satisfy [P] to the trace. *)

Definition keeps {A} (Iv : globals -> Prop) (P : event -> Prop) (m : run A)
    : Prop :=
  forall w, Iv (vars w) ->
    Iv (vars (m w).2)
    /\ exists t, trace (m w).2 = trace w ++ t /\ Forall P t.

Lemma keeps_ret {A} Iv P (a : A) : keeps Iv P (mret a).
Proof. intros w Hw. split; [done|]. exists []. by rewrite app_nil_r. Qed.

Lemma keeps_bind {A B} Iv P (m : run A) (f : A -> run B) :
  keeps Iv P m -> (forall a, keeps Iv P (f a)) -> keeps Iv P (m ≫= f).
Proof.
  intros Hm Hf w Hw. destruct (Hm w Hw) as (Hv & t & Ht & HP).
  unfold mbind, run_bind. destruct (m w) as [[a| |] w1]; simpl in *; eauto.
  destruct (Hf a w1 Hv) as (Hv' & t' & Ht' & HP'). split; [done|].
  exists (t ++ t'). rewrite Ht', Ht, app_assoc. split; [done|].
  by apply Forall_app.
Qed.

Lemma keeps_emit Iv (P : event -> Prop) e : P e -> keeps Iv P (emit e).
Proof. intros He w Hw. split; [done|]. exists [e]. simpl. auto. Qed.

Lemma keeps_silent {A} Iv P (m : run A) :
  (forall w, vars (m w).2 = vars w /\ trace (m w).2 = trace w) -> keeps Iv P m.
Proof.
  intros H w Hw. destruct (H w) as [-> ->]. split; [done|].
  exists []. by rewrite app_nil_r.
Qed.

Lemma keeps_raise {A} Iv P e : keeps Iv P (raise e : run A).
Proof. by apply keeps_silent. Qed.

Lemma keeps_hang {A} Iv P : keeps Iv P (hang : run A).
Proof. by apply keeps_silent. Qed.

Lemma keeps_get_vars Iv P : keeps Iv P get_vars.
Proof. by apply keeps_silent. Qed.

Lemma keeps_with_vars {A} Iv P (f : globals -> run A) :
  (forall v, Iv v -> keeps Iv P (f v)) -> keeps Iv P (get_vars ≫= f).
Proof. intros H w Hw. exact (H (vars w) Hw w Hw). Qed.

Lemma keeps_get_fs Iv P : keeps Iv P get_fs.
Proof. by apply keeps_silent. Qed.

Lemma keeps_get_stdin Iv P : keeps Iv P get_stdin.
Proof. by apply keeps_silent. Qed.

Lemma keeps_set_fs Iv P f : keeps Iv P (set_fs f).
Proof. by apply keeps_silent. Qed.

Lemma keeps_input Iv (P : event -> Prop) prompt :
  P (Input prompt) -> keeps Iv P (input prompt).
Proof.
  intros HP w Hw. unfold input. destruct (stdin w); simpl; eauto.
Qed.

Lemma keeps_try_finally {A} Iv P (body : run A) final :
  keeps Iv P body -> keeps Iv P final -> keeps Iv P (try_finally body final).
Proof.
  intros Hb Hf w Hw. destruct (Hb w Hw) as (Hv & t & Ht & HP).
  unfold try_finally.
  destruct (body w) as [o w1]; simpl in *.
  destruct (Hf w1 Hv) as (Hv' & t' & Ht' & HP').
  assert (exists t0, trace (final w1).2 = trace w ++ t0 /\ Forall P t0) as Hx.
  { exists (t ++ t'). rewrite Ht', Ht, app_assoc. split; [done|].
    by apply Forall_app. }
  destruct o; destruct (final w1) as [[[]| |] w2]; simpl in *; eauto.
Qed.

Lemma keeps_for_each {A} Iv P (l : list A) body :
  (forall x, keeps Iv P (body x)) -> keeps Iv P (for_each l body).
Proof.
  intros Hb. induction l as [|x l IH]; simpl.
  - apply keeps_ret.
  - apply keeps_bind; [apply Hb|]. intros _. apply IH.
Qed.

Lemma keeps_weaken {A} Iv (P Q : event -> Prop) (m : run A) :
  (forall e, P e -> Q e) -> keeps Iv P m -> keeps Iv Q m.
Proof.
  intros HPQ Hm w Hw. destruct (Hm w Hw) as (Hv & t & Ht & HP).
  split; [done|]. exists t. split; [done|]. eapply Forall_impl; eauto.
Qed.

Ltac keeps_step :=
  first
    [ apply keeps_ret | apply keeps_raise | apply keeps_hang
    | apply keeps_get_vars | apply keeps_get_fs | apply keeps_get_stdin
    | apply keeps_set_fs
    | apply keeps_emit; simpl; by auto
    | apply keeps_input; simpl; by auto
    | apply keeps_bind; [|intros ?]
    | match goal with
      | |- keeps _ _ (if ?b then _ else _) => destruct b
      | |- keeps _ _ (match ?x with _ => _ end) => destruct x
      end ].

Ltac keeps_auto := repeat keeps_step.

Lemma keeps_print Iv P (msg : str) :
  (forall m, P (Stdout m)) ->
  keeps Iv P (debug_print msg) /\ keeps Iv P (info_print msg).
Proof. intros H. split; unfold debug_print, info_print; keeps_auto. Qed.

Lemma keeps_makedirs Iv (P : event -> Prop) p :
  P (Makedirs p) -> keeps Iv P (makedirs p).
Proof. intros H. unfold makedirs. keeps_auto. Qed.

Lemma keeps_run_ocrmypdf Iv (P : event -> Prop) E input output :
  (forall s, P (Ocrmypdf input output s)) ->
  keeps Iv P (run_ocrmypdf E input output).
Proof. intros H. unfold run_ocrmypdf. keeps_auto. Qed.

(** Placement adds no event but the ones of the folder creation, the
    message and, outside dry-run mode, the move and the removal. *)
Definition placement_event (dry : bool) (file_path_str : str) (e : event)
    : Prop :=
  match e with
  | Makedirs _ | Stdout _ => True
  | Move _ _ => dry = false
  | Remove p => dry = false /\ p = file_path_str
  | _ => False
  end.

Lemma keeps_place (dry : bool) dest_dir file_path_str ocr_file date_stamp :
  keeps (fun v => dry = DRY_RUN v) (placement_event dry file_path_str)
    (place dest_dir file_path_str ocr_file date_stamp).
Proof.
  unfold place.
  apply keeps_bind; [by apply keeps_makedirs|]. intros _.
  apply keeps_bind; [apply keeps_get_fs|]. intros f.
  destruct (while_exists _ _ _ _ _ _) as [dest_file|]; [|apply keeps_hang].
  apply keeps_bind; [by apply keeps_print|]. intros _.
  apply keeps_with_vars. intros v ->.
  destruct (DRY_RUN v); [apply keeps_ret|].
  unfold shutil_move, os_remove. keeps_auto.
Qed.

(** ** The file name prefix *)

Lemma keeps_ext {A} Iv P (m m' : run A) :
  (forall w, m w = m' w) -> keeps Iv P m' -> keeps Iv P m.
Proof. intros H Hm w Hw. rewrite H. by apply Hm. Qed.

Lemma extract_prefix pad f :
  is_Some (re_match prefix_re f) ->
  extract_date_from_filename pad f = Some (take 8 f)
  /\ length (take 8 f) = 8 /\ forallb isdigit (take 8 f) = true.
Proof.
  intros [m Hm]. unfold extract_date_from_filename. rewrite Hm.
  apply re_match_sound in Hm as (u & rest & -> & H & _).
  apply prefix_re_den in H as (d & sep & mid & -> & Hlen & Hd & _ & _ & _ & Hg).
  unfold group. rewrite Hg. simpl.
  by rewrite <- app_assoc, <- Hlen, take_app_length.
Qed.

(** The events of the second and third strategy. *)
Definition consults_text_or_user (e : event) : bool :=
  match e with
  | Pdftotext _ | Stat _ | Input _ | Open _ => true
  | _ => false
  end.

Lemma resolve_date_prefix E file_path_str ocr_file w :
  is_Some (re_match prefix_re (basename file_path_str)) ->
  resolve_date E file_path_str ocr_file w =
  (debug_print ("Date stamp extracted from file name: "
                ++ take 8 (basename file_path_str));;
   mret (take 8 (basename file_path_str))) w.
Proof.
  intros H. destruct (extract_prefix (pad_year E) _ H) as (He & Hlen & _).
  unfold resolve_date. rewrite He.
  destruct (take 8 (basename file_path_str)) as [|c s] eqn:Ht; [done|].
  simpl truthy. cbn iota. unfold mbind, run_bind. simpl format_opt.
  by destruct (debug_print _ w) as [[[]| |] w1].
Qed.

(** C1.  A file whose basename matches [^[0-9]{8}[_-].*\.pdf$] gets the
    leading 8 characters of the basename as its date stamp, whatever they
    are as a calendar date; the resolver then only prints its debug
    message, and the processing of that file never runs the text
    extraction and never prompts. *)
Theorem filename_prefix_wins (E : env)
    (tmp_dir dest_dir file_path_str ocr_file : str) (w : world) :
  is_Some (re_match prefix_re (basename file_path_str)) ->
  let stamp := take 8 (basename file_path_str) in
  extract_date_from_filename (pad_year E) (basename file_path_str) = Some stamp
  /\ length stamp = 8
  /\ resolve_date E file_path_str ocr_file w =
       (debug_print ("Date stamp extracted from file name: " ++ stamp);;
        mret stamp) w
  /\ exists t,
       trace (process_file E tmp_dir dest_dir file_path_str w).2 = trace w ++ t
       /\ Forall (fun e => consults_text_or_user e = false) t.
Proof.
  intros H stamp. destruct (extract_prefix (pad_year E) _ H) as (He & Hlen & _).
  split; [done|]. split; [done|]. split; [by apply resolve_date_prefix|].
  assert (keeps (fun v => DRY_RUN (vars w) = DRY_RUN v)
            (fun e => consults_text_or_user e = false)
            (process_file E tmp_dir dest_dir file_path_str)) as Hk.
  { unfold process_file.
    apply keeps_bind; [by apply keeps_print|]. intros _.
    apply keeps_bind; [by apply keeps_run_ocrmypdf|]. intros _.
    apply keeps_bind.
    - eapply keeps_ext; [intros w1; by apply resolve_date_prefix|].
      apply keeps_bind; [by apply keeps_print|].
      intros _. apply keeps_ret.
    - intros date_stamp. eapply keeps_weaken; [|apply keeps_place].
      intros [] He'; simpl in *; done. }
  by destruct (Hk w eq_refl) as [_ Ht].
Qed.

Definition demo_env : env :=
  {| which := fun _ => true; platform := "linux"; pad_year := false;
     getcwd := "/home/user"; mkdtemp := "/tmp/tmpq1w2e3";
     scandir := fun _ _ => [];
     ocrmypdf := fun _ => 0%Z;
     pdftotext := fun _ => {| returncode := 0; stdout := "" |};
     st_ctime := fun _ => {| year := 2024; month := 1; day := 31 |} |}.

Definition demo_world : world :=
  {| vars := initial_globals; fs := ∅; stdin := []; trace := [] |}.

Lemma filename_prefix_wins_witness :
  is_Some (re_match prefix_re (basename "/in/99999999-receipt.pdf"))
  /\ extract_date_from_filename false (basename "/in/99999999-receipt.pdf")
     = Some (take 8 (basename "/in/99999999-receipt.pdf")).
Proof.
  assert (is_Some (re_match prefix_re (basename "/in/99999999-receipt.pdf")))
    as H by (vm_compute; eauto).
  split; [exact H|].
  exact (proj1 (filename_prefix_wins demo_env "/tmp/tmpq1w2e3" "/archive"
                  "/in/99999999-receipt.pdf"
                  "/tmp/tmpq1w2e3/99999999-receipt.pdf" demo_world H)).
Defined.

(** ** The ordered formats of [parse_date] *)

Lemma try_formats_spec pad line formats stamp :
  try_formats pad line formats = Some stamp <->
  exists i format d,
    formats !! i = Some format /\ strptime line format = Some d
    /\ stamp = strftime_Ymd pad d
    /\ forall j format', j < i -> formats !! j = Some format' ->
         strptime line format' = None.
Proof.
  induction formats as [|fmt formats IH]; simpl.
  - split; [done|]. by intros (i & format & d & ? & _).
  - destruct (strptime line fmt) as [d|] eqn:Hd.
    + split.
      * intros [= <-]. exists 0, fmt, d. repeat split; [done|]. lia.
      * intros ([|i] & format & d' & Hi & Hd' & -> & Hj); simpl in Hi.
        -- congruence.
        -- specialize (Hj 0 fmt). rewrite Hj in Hd; [done|lia|done].
    + rewrite IH. split.
      * intros (i & format & d & Hi & Hd' & -> & Hj).
        exists (S i), format, d. repeat split; [done..|].
        intros [|j] format' Hlt Hf; simpl in Hf; [congruence|].
        eapply Hj; [|done]. lia.
      * intros ([|i] & format & d & Hi & Hd' & -> & Hj); simpl in Hi.
        -- congruence.
        -- exists i, format, d. repeat split; [done..|].
           intros j format' Hlt Hf. apply (Hj (S j)); [lia|done].
Qed.

(** C2.  [parse_date] strips its argument and tries the eight formats in
    the order of the list; the stamp comes from the first format under which
    [strptime] accepts the text.  "May 17, 2024" gives "20240517", and
    "17/05/2024" gives "20240517" through [%d/%m/%Y], the formats before it
    rejecting that text. *)
Theorem parse_date_first_format_wins (pad : bool) (line : str) :
  date_formats
  = map list_ascii_of_string
      ["%Y/%m/%d"; "%Y-%m-%d"; "%Y.%m.%d"; "%d/%m/%Y"; "%d-%m-%Y";
       "%d.%m.%Y"; "%B %d, %Y"; "%b %d, %Y"]
  /\ (forall stamp,
        parse_date pad line = Some stamp <->
        exists i format d,
          date_formats !! i = Some format
          /\ strptime (strip line) format = Some d
          /\ stamp = strftime_Ymd pad d
          /\ forall j format', j < i -> date_formats !! j = Some format' ->
               strptime (strip line) format' = None)
  /\ parse_date pad "May 17, 2024" = Some ("20240517" : str)
  /\ parse_date pad "17/05/2024" = Some ("20240517" : str)
  /\ date_formats !! 3 = Some ("%d/%m/%Y" : str)
  /\ strptime "17/05/2024" "%d/%m/%Y"
     = Some {| year := 2024; month := 5; day := 17 |}
  /\ (forall j format', j < 3 -> date_formats !! j = Some format' ->
        strptime "17/05/2024" format' = None).
Proof.
  split; [done|]. split; [intros stamp; apply try_formats_spec|].
  split; [by destruct pad; vm_compute|].
  split; [by destruct pad; vm_compute|].
  split; [done|]. split; [by vm_compute|].
  intros j format' Hj Hf.
  destruct j as [|[|[|j]]]; try lia; vm_compute in Hf; injection Hf as <-;
    by vm_compute.
Qed.

(** One text for each of the eight formats, and the text around which
    white space is stripped. *)
Example parse_date_each_format (pad : bool) :
  map (parse_date pad)
    (map list_ascii_of_string
       ["2024/05/17"; "2024-05-17"; "2024.05.17"; "17/05/2024"; "17-05-2024";
        "17.05.2024"; "May 17, 2024"; "Sep 5, 2024"; "  2024-05-17 "])
  = map (fun s => Some (list_ascii_of_string s))
      ["20240517"; "20240517"; "20240517"; "20240517"; "20240517";
       "20240517"; "20240517"; "20240905"; "20240517"].
Proof. by destruct pad; vm_compute. Qed.

(** A text that no format accepts, and one that names no day of the
    calendar. *)
Example parse_date_rejects (pad : bool) :
  parse_date pad "Sept 5, 2024" = None /\ parse_date pad "31/02/2024" = None.
Proof. by destruct pad; vm_compute. Qed.

(** ** The shape of a parsed date *)

Lemma forallb_below (P : N -> bool) (n : N) :
  forallb P (map N.of_nat (seq 0 (N.to_nat n))) = true ->
  forall y, (y < n)%N -> P y = true.
Proof.
  intros H y Hy. rewrite forallb_forall in H. apply H.
  rewrite <- (N2Nat.id y). apply in_map, in_seq. lia.
Qed.

Lemma year_shape y :
  (y <= 9999)%N ->
  forallb isdigit (str_of_N y) = true
  /\ 1 <= length (str_of_N y) <= 4
  /\ ((1000 <= y)%N -> length (str_of_N y) = 4)
  /\ ((y < 1000)%N -> length (str_of_N y) <= 3)
  /\ forallb isdigit (zfill 4 (str_of_N y)) = true
  /\ length (zfill 4 (str_of_N y)) = 4.
Proof.
  intros Hy.
  pose (P := fun y =>
    forallb isdigit (str_of_N y)
    && (1 <=? length (str_of_N y))%nat && (length (str_of_N y) <=? 4)%nat
    && ((y <? 1000)%N || (length (str_of_N y) =? 4)%nat)
    && ((1000 <=? y)%N || (length (str_of_N y) <=? 3)%nat)
    && forallb isdigit (zfill 4 (str_of_N y))
    && (length (zfill 4 (str_of_N y)) =? 4)%nat).
  assert (P y = true) as H.
  { apply (forallb_below P 10000); [by vm_compute|lia]. }
  unfold P in H. repeat (apply andb_true_iff in H as [H ?]).
  repeat match goal with
         | H : (_ =? _)%nat = true |- _ => apply Nat.eqb_eq in H
         | H : (_ <=? _)%nat = true |- _ => apply Nat.leb_le in H
         | H : _ || _ = true |- _ => apply orb_true_iff in H
         end.
  repeat match goal with
         | H : _ \/ _ |- _ => destruct H as [H|H]
         | H : (_ <? _)%N = true |- _ => apply N.ltb_lt in H
         | H : (_ <=? _)%N = true |- _ => apply N.leb_le in H
         | H : (_ =? _)%nat = true |- _ => apply Nat.eqb_eq in H
         | H : (_ <=? _)%nat = true |- _ => apply Nat.leb_le in H
         end; repeat split; try done; lia.
Qed.

Lemma two_digits n :
  (n <= 31)%N ->
  forallb isdigit (zfill 2 (str_of_N n)) = true
  /\ length (zfill 2 (str_of_N n)) = 2.
Proof.
  intros Hn.
  pose (P := fun n =>
    forallb isdigit (zfill 2 (str_of_N n))
    && (length (zfill 2 (str_of_N n)) =? 2)%nat).
  assert (P n = true) as H.
  { apply (forallb_below P 32); [by vm_compute|lia]. }
  unfold P in H. apply andb_true_iff in H as [H1 H2].
  by apply Nat.eqb_eq in H2.
Qed.

Lemma datetime_date_valid y m d dt :
  datetime_date y m d = Some dt ->
  dt = {| year := y; month := m; day := d |}
  /\ (1 <= y <= 9999)%N /\ (1 <= m <= 12)%N /\ (1 <= d <= 31)%N.
Proof.
  unfold datetime_date. intros H.
  destruct (_ && _) eqn:Hc in H; [|done]. injection H as <-.
  repeat (apply andb_true_iff in Hc as [Hc ?]).
  repeat match goal with
         | H : (_ <=? _)%N = true |- _ => apply N.leb_le in H
         end.
  assert (days_in_month y m <= 31)%N.
  { unfold days_in_month. repeat case_match; lia. }
  split; [done|]. lia.
Qed.

Lemma strptime_valid data_string format dt :
  strptime data_string format = Some dt ->
  (1 <= year dt <= 9999)%N /\ (1 <= month dt <= 12)%N /\ (1 <= day dt <= 31)%N.
Proof.
  unfold strptime. intros H.
  destruct (pattern false format) as [r|]; [|done]. simpl in H.
  destruct (re_match r data_string) as [found|]; [|done]. simpl in H.
  destruct (_ =? _)%nat; [|done].
  destruct (found_year found) as [y|]; [|done]. simpl in H.
  destruct (found_month found) as [m|]; [|done]. simpl in H.
  destruct (found_day found) as [d|]; [|done]. simpl in H.
  by apply datetime_date_valid in H as (-> & ?).
Qed.

(** A stamp of digits: eight of them, or fewer where the year is below 1000
    and is not padded. *)
Definition numeric_stamp (pad : bool) (stamp : str) : Prop :=
  forallb isdigit stamp = true
  /\ (length stamp = 8 \/ pad = false /\ 5 <= length stamp < 8).

Lemma strftime_Ymd_shape pad dt :
  (1 <= year dt <= 9999)%N -> (1 <= month dt <= 12)%N ->
  (1 <= day dt <= 31)%N ->
  numeric_stamp pad (strftime_Ymd pad dt)
  /\ ((1000 <= year dt)%N -> length (strftime_Ymd pad dt) = 8).
Proof.
  intros Hy Hm Hd.
  destruct (year_shape (year dt)) as (Y1 & Y2 & Y3 & Y6 & Y4 & Y5); [lia|].
  destruct (two_digits (month dt)) as [M1 M2]; [lia|].
  destruct (two_digits (day dt)) as [D1 D2]; [lia|].
  unfold numeric_stamp, strftime_Ymd.
  destruct pad; rewrite !forallb_app, !length_app, M1, M2, D1, D2.
  - rewrite Y4, Y5. split; [split; [done|by left]|done].
  - rewrite Y1. split; [split; [done|]|intros H; apply Y3 in H; lia].
    destruct (N.leb_spec 1000 (year dt)) as [H|H];
      [left; apply Y3 in H; lia|right; apply Y6 in H; split; [done|lia]].
Qed.

Lemma parse_date_shape pad line stamp :
  parse_date pad line = Some stamp ->
  numeric_stamp pad stamp /\ truthy (Some stamp) = true.
Proof.
  unfold parse_date. intros H.
  apply try_formats_spec in H as (i & format & dt & _ & Hdt & -> & _).
  apply strptime_valid in Hdt as (Hy & Hm & Hd).
  destruct (strftime_Ymd_shape pad dt Hy Hm Hd) as [Hn _].
  split; [done|]. destruct Hn as [_ Hlen].
  destruct (strftime_Ymd pad dt); simpl in *; [lia|done].
Qed.

(** ** Scanning the extracted text *)

Lemma scan_lines_first E d0 pre line post stamp w :
  Forall (fun l => parse_date (pad_year E) l = None) pre ->
  parse_date (pad_year E) line = Some stamp ->
  scan_lines E d0 (pre ++ line :: post) w
  = (debug_print ("Date stamp extracted from OCR text: " ++ stamp);;
     mret (Some stamp)) w.
Proof.
  intros Hpre Hline. revert d0. induction Hpre as [|l pre Hl _ IH]; intros d0.
  - simpl. rewrite Hline.
    by destruct (parse_date_shape _ _ _ Hline) as [_ ->].
  - simpl. rewrite Hl. simpl. apply IH.
Qed.

Lemma scan_lines_none E d0 lines w :
  Forall (fun l => parse_date (pad_year E) l = None) lines ->
  scan_lines E d0 lines w
  = (Ok (match lines with [] => d0 | _ => None end), w).
Proof.
  intros H. revert d0. induction H as [|l lines Hl _ IH]; intros d0; [done|].
  simpl. rewrite Hl. simpl. rewrite IH. by destruct lines.
Qed.

(** Without a date in the file name the resolver extracts the text, scans it
    and asks the user when the scan leaves nothing. *)
Lemma resolve_date_text E file_path_str ocr_file w :
  extract_date_from_filename (pad_year E) (basename file_path_str) = None ->
  resolve_date E file_path_str ocr_file w
  = (date_stamp ← scan_lines E None
                    (splitlines (stdout (pdftotext E ocr_file)));
     match date_stamp with
     | Some (c :: s) => mret (c :: s)
     | _ => ask_date E file_path_str
     end) (log w (Pdftotext ocr_file)).
Proof.
  intros He. unfold resolve_date. rewrite He. simpl truthy. cbn iota.
  unfold run_pdftotext, mbind, run_bind, emit, mret, run_ret. simpl.
  by destruct (scan_lines _ _ _ _) as [[?| |] ?].
Qed.

(** C6.  When the text is scanned, the lines of [splitlines] are taken in
    their order and the first line that [parse_date] accepts gives the
    stamp: the outcome is the same whatever lines [post] come after it. *)
Theorem first_parsing_line_wins (E : env) (file_path_str ocr_file : str)
    (w : world) (pre : list str) (line : str) (post : list str) (stamp : str) :
  extract_date_from_filename (pad_year E) (basename file_path_str) = None ->
  splitlines (stdout (pdftotext E ocr_file)) = pre ++ line :: post ->
  Forall (fun l => parse_date (pad_year E) l = None) pre ->
  parse_date (pad_year E) line = Some stamp ->
  resolve_date E file_path_str ocr_file w
  = (debug_print ("Date stamp extracted from OCR text: " ++ stamp);;
     mret stamp) (log w (Pdftotext ocr_file)).
Proof.
  intros He Hlines Hpre Hline. rewrite resolve_date_text by done.
  rewrite Hlines. unfold mbind at 1. unfold run_bind at 1.
  rewrite (scan_lines_first E None pre line post stamp) by done.
  destruct (parse_date_shape _ _ _ Hline) as [_ Ht].
  destruct stamp as [|c s]; [done|].
  unfold mbind, run_bind.
  by destruct (debug_print _ _) as [[[]| |] w1].
Qed.

Definition text_env (status : Z) (text : str) : env :=
  {| which := fun _ => true; platform := "linux"; pad_year := false;
     getcwd := "/home/user"; mkdtemp := "/tmp/tmpq1w2e3";
     scandir := fun _ _ => map list_ascii_of_string ["/in/scan.pdf"];
     ocrmypdf := fun _ => 0%Z;
     pdftotext := fun _ => {| returncode := status; stdout := text |};
     st_ctime := fun _ => {| year := 2024; month := 1; day := 31 |} |}.

Definition LF : str := ["010"%char].

Definition three_lines : str :=
  "Invoice" ++ LF ++ "17/05/2024" ++ LF ++ "2023-01-01" ++ LF.

Lemma first_parsing_line_wins_witness :
  resolve_date (text_env 0 three_lines) "/in/scan.pdf"
    "/tmp/tmpq1w2e3/scan.pdf" demo_world
  = (Ok ("20240517" : str),
     log demo_world (Pdftotext "/tmp/tmpq1w2e3/scan.pdf")).
Proof.
  rewrite (first_parsing_line_wins (text_env 0 three_lines) "/in/scan.pdf"
             "/tmp/tmpq1w2e3/scan.pdf" demo_world
             [("Invoice" : str)] "17/05/2024" [("2023-01-01" : str)]
             "20240517");
    [reflexivity|reflexivity|reflexivity| |reflexivity].
  repeat constructor.
Defined.

(** ** The interactive prompt *)

Lemma keeps_prompt_loop Iv (P : event -> Prop) E file_path_str suggested_date fuel :
  (forall e, consults_text_or_user e = true \/ (exists m, e = Stdout m) -> P e) ->
  keeps Iv P (prompt_loop E file_path_str suggested_date fuel).
Proof.
  intros HP. induction fuel as [|fuel IH]; simpl.
  - apply keeps_bind; [apply keeps_input; apply HP; by left|]. intros line.
    destruct (bool_decide _); [|apply keeps_ret].
    apply keeps_bind; [|intros _; apply keeps_hang].
    destruct (open_command _ _); apply keeps_emit, HP; eauto.
  - apply keeps_bind; [apply keeps_input; apply HP; by left|]. intros line.
    destruct (bool_decide _); [|apply keeps_ret].
    apply keeps_bind; [|intros _; apply IH].
    destruct (open_command _ _); apply keeps_emit, HP; eauto.
Qed.

(** One round of the loop. *)
Definition open_event (E : env) (file_path_str : str) : event :=
  match open_command E file_path_str with
  | Some command => Open command
  | None => Stdout "Unsupported platform for opening files"
  end.

Lemma prompt_loop_unfold E file_path_str suggested_date fuel w :
  prompt_loop E file_path_str suggested_date fuel w
  = match stdin w with
    | [] => (Raise EOFError,
             log w (Input (prompt_text file_path_str suggested_date)))
    | line :: rest =>
        let w1 := {| vars := vars w; fs := fs w; stdin := rest;
                     trace := trace w
                       ++ [Input (prompt_text file_path_str suggested_date)] |} in
        if bool_decide (map lower line = "o") then
          match fuel with
          | S fuel' => prompt_loop E file_path_str suggested_date fuel'
          | O => hang
          end (log w1 (open_event E file_path_str))
        else (Ok (match line with [] => suggested_date | _ => line end), w1)
    end.
Proof.
  unfold open_event.
  destruct fuel; simpl; unfold mbind, run_bind, input;
    (destruct (stdin w) as [|line rest]; [done|]);
    (destruct (bool_decide _); [|done]);
    by destruct (open_command _ _).
Qed.

(** The prompt is shown at least once, and the answer is a line of standard
    input as it was typed, or the suggested date. *)
Lemma prompt_loop_result E file_path_str suggested_date fuel : forall w stamp w',
  prompt_loop E file_path_str suggested_date fuel w = (Ok stamp, w') ->
  (stamp ∈ stdin w \/ stamp = suggested_date)
  /\ exists prompt, Input prompt ∈ trace w'.
Proof.
  induction fuel as [|fuel IH]; intros w stamp w' H;
    rewrite prompt_loop_unfold in H;
    destruct (stdin w) as [|line rest] eqn:Hin; try done; cbn zeta in H;
    destruct (bool_decide _) eqn:Ho; try done.
  - injection H as <- <-. simpl. split.
    + destruct line; [by right|left; apply list_elem_of_here].
    + eexists. apply elem_of_app. right. apply list_elem_of_here.
  - apply IH in H as [[Hs|Hs] Hp]; simpl in Hs.
    + split; [left; by apply list_elem_of_further|done].
    + split; [by right|done].
  - injection H as <- <-. simpl. split.
    + destruct line; [by right|left; apply list_elem_of_here].
    + eexists. apply elem_of_app. right. apply list_elem_of_here.
Qed.

Lemma ask_date_result E file_path_str w stamp w' :
  ask_date E file_path_str w = (Ok stamp, w') ->
  (stamp ∈ stdin w
   \/ stamp = strftime_Ymd (pad_year E) (st_ctime E file_path_str))
  /\ exists prompt, Input prompt ∈ trace w'.
Proof.
  unfold ask_date, mbind, run_bind. simpl. intros H.
  by apply prompt_loop_result in H.
Qed.

(** The prompt comes first, whatever follows. *)
Lemma prompt_loop_asks E file_path_str suggested_date fuel w :
  exists t,
    trace (prompt_loop E file_path_str suggested_date fuel w).2
    = trace w ++ Input (prompt_text file_path_str suggested_date) :: t.
Proof.
  rewrite prompt_loop_unfold.
  destruct (stdin w) as [|line rest]; [by exists []|]. cbn zeta.
  destruct (bool_decide _); [|by exists []].
  match goal with |- context [?m (log ?w1 ?e)] =>
    assert (keeps (fun _ => True) (fun _ => True) m) as Hk
      by (destruct fuel; [apply keeps_hang|by apply keeps_prompt_loop]);
    destruct (Hk (log w1 e) I) as (_ & t & Ht & _) end.
  eexists. rewrite Ht. simpl. rewrite <- !app_assoc. simpl. done.
Qed.

Lemma ask_date_asks E file_path_str w :
  exists t,
    trace (ask_date E file_path_str w).2
    = trace w ++ Stat file_path_str
        :: Input (prompt_text file_path_str
                    (strftime_Ymd (pad_year E) (st_ctime E file_path_str)))
        :: t.
Proof.
  destruct (prompt_loop_asks E file_path_str
              (strftime_Ymd (pad_year E) (st_ctime E file_path_str))
              (length (stdin w)) (log w (Stat file_path_str))) as [t Ht].
  exists t. unfold ask_date, mbind, run_bind. simpl in *.
  rewrite Ht. by rewrite <- app_assoc.
Qed.

(** ** A text extraction that fails *)

(** C9, as the script has it.  The exit status of the text extraction is
    never looked at: the call returns normally whatever the status is,
    and when the file name gives no date and no line of the captured
    output parses (an empty output included), the resolver goes on to the
    interactive prompt for that file. *)
Theorem text_extraction_status_ignored (E : env)
    (file_path_str ocr_file : str) (w : world) :
  extract_date_from_filename (pad_year E) (basename file_path_str) = None ->
  Forall (fun l => parse_date (pad_year E) l = None)
    (splitlines (stdout (pdftotext E ocr_file))) ->
  run_pdftotext E ocr_file w
  = (Ok (pdftotext E ocr_file), log w (Pdftotext ocr_file))
  /\ resolve_date E file_path_str ocr_file w
     = ask_date E file_path_str (log w (Pdftotext ocr_file))
  /\ exists t,
       trace (resolve_date E file_path_str ocr_file w).2
       = trace w ++ Pdftotext ocr_file :: Stat file_path_str
           :: Input (prompt_text file_path_str
                       (strftime_Ymd (pad_year E) (st_ctime E file_path_str)))
           :: t.
Proof.
  intros He Hlines. split; [done|].
  assert (resolve_date E file_path_str ocr_file w
          = ask_date E file_path_str (log w (Pdftotext ocr_file))) as Hr.
  { rewrite resolve_date_text by done. unfold mbind at 1, run_bind at 1.
    rewrite scan_lines_none by done. by destruct (splitlines _). }
  split; [done|]. rewrite Hr.
  destruct (ask_date_asks E file_path_str (log w (Pdftotext ocr_file)))
    as [t Ht].
  exists t. rewrite Ht. simpl. by rewrite <- app_assoc.
Qed.

Definition typing (lines : list str) : world :=
  {| vars := initial_globals; fs := ∅; stdin := lines; trace := [] |}.

Lemma text_extraction_status_ignored_witness :
  returncode (pdftotext (text_env 1 "") "/tmp/tmpq1w2e3/scan.pdf") = 1%Z
  /\ resolve_date (text_env 1 "") "/in/scan.pdf" "/tmp/tmpq1w2e3/scan.pdf"
       (typing [("20240517" : str)])
     = ask_date (text_env 1 "") "/in/scan.pdf"
         (log (typing [("20240517" : str)])
            (Pdftotext "/tmp/tmpq1w2e3/scan.pdf")).
Proof.
  split; [reflexivity|].
  refine (proj1 (proj2 (text_extraction_status_ignored (text_env 1 "")
                          "/in/scan.pdf" "/tmp/tmpq1w2e3/scan.pdf"
                          (typing [("20240517" : str)]) _ _)));
    [reflexivity|constructor].
Defined.

(** The text extraction exits with status 1 after printing a date: the
    date is taken, and the user is not asked. *)
Lemma nonzero_exit_with_text_is_used :
  returncode (pdftotext (text_env 1 ("2024-05-17" ++ LF))
                "/tmp/tmpq1w2e3/scan.pdf") <> 0%Z
  /\ extract_date_from_filename false (basename "/in/scan.pdf") = None
  /\ resolve_date (text_env 1 ("2024-05-17" ++ LF)) "/in/scan.pdf"
       "/tmp/tmpq1w2e3/scan.pdf" (typing [("20230101" : str)])
     = (Ok ("20240517" : str),
        log (typing [("20230101" : str)])
          (Pdftotext "/tmp/tmpq1w2e3/scan.pdf"))
  /\ forall prompt,
       Input prompt
       ∉ trace (resolve_date (text_env 1 ("2024-05-17" ++ LF)) "/in/scan.pdf"
                  "/tmp/tmpq1w2e3/scan.pdf" (typing [("20230101" : str)])).2.
Proof.
  assert (resolve_date (text_env 1 ("2024-05-17" ++ LF)) "/in/scan.pdf"
            "/tmp/tmpq1w2e3/scan.pdf" (typing [("20230101" : str)])
          = (Ok ("20240517" : str),
             log (typing [("20230101" : str)])
               (Pdftotext "/tmp/tmpq1w2e3/scan.pdf"))) as H
    by (vm_compute; reflexivity).
  split; [done|]. split; [by vm_compute|]. split; [exact H|].
  intros prompt. rewrite H. simpl. by rewrite list_elem_of_singleton.
Qed.

(** ** The shape of the resolved stamp *)

Lemma debug_print_world msg w :
  exists w', debug_print msg w = (Ok tt, w') /\ stdin w' = stdin w
             /\ vars w' = vars w /\ fs w' = fs w.
Proof.
  unfold debug_print, mbind, run_bind. simpl.
  destruct (DEBUG (vars w)); eauto.
Qed.

Lemma extract_shape pad f stamp :
  extract_date_from_filename pad f = Some stamp ->
  numeric_stamp pad stamp /\ truthy (Some stamp) = true.
Proof.
  unfold extract_date_from_filename.
  destruct (re_match prefix_re f) as [m|] eqn:Hm.
  - assert (is_Some (re_match prefix_re f)) as H by eauto.
    destruct (extract_prefix pad f H) as (He & Hlen & Hd).
    unfold extract_date_from_filename in He. rewrite Hm in He.
    rewrite He. intros [= <-]. split; [split; [done|by left]|].
    by destruct (take 8 f).
  - destruct (re_match descriptive_re f) as [m|]; [|done].
    destruct (group m "1") as [v|]; [|done]. simpl. apply parse_date_shape.
Qed.

Lemma scan_lines_shape E lines : forall d0 w,
  exists r w1,
    scan_lines E d0 lines w = (Ok r, w1) /\ stdin w1 = stdin w
    /\ (r = d0 \/ r = None
        \/ exists stamp, r = Some stamp /\ numeric_stamp (pad_year E) stamp
                         /\ truthy r = true).
Proof.
  induction lines as [|line lines IH]; intros d0 w; simpl.
  - exists d0, w. auto.
  - destruct (parse_date (pad_year E) line) as [stamp|] eqn:Hp.
    + destruct (parse_date_shape _ _ _ Hp) as [Hn Ht]. rewrite Ht.
      unfold mbind, run_bind.
      match goal with |- context [debug_print ?m ?w0] =>
        destruct (debug_print_world m w0) as (w1 & -> & Hin & _) end.
      exists (Some stamp), w1. split; [done|]. split; [done|]. eauto 8.
    + simpl. destruct (IH None w) as (r & w1 & -> & Hin & Hr).
      exists r, w1. split; [done|]. split; [done|].
      destruct Hr as [->|[->|Hr]]; auto.
Qed.

(** *** The digits of a calendar date *)

Lemma datetime_date_calendar y m d dt :
  datetime_date y m d = Some dt ->
  dt = {| year := y; month := m; day := d |}
  /\ (1 <= y <= 9999)%N /\ (1 <= m <= 12)%N
  /\ (1 <= d <= days_in_month y m)%N.
Proof.
  unfold datetime_date. intros H.
  destruct (_ && _) eqn:Hc in H; [|done]. injection H as <-.
  repeat (apply andb_true_iff in Hc as [Hc ?]).
  repeat match goal with
         | H : (_ <=? _)%N = true |- _ => apply N.leb_le in H
         end.
  split; [done|]. lia.
Qed.

Lemma strptime_calendar data_string format dt :
  strptime data_string format = Some dt ->
  (1 <= year dt <= 9999)%N /\ (1 <= month dt <= 12)%N
  /\ (1 <= day dt <= days_in_month (year dt) (month dt))%N.
Proof.
  unfold strptime. intros H.
  destruct (pattern false format) as [r|]; [|done]. simpl in H.
  destruct (re_match r data_string) as [found|]; [|done]. simpl in H.
  destruct (_ =? _)%nat; [|done].
  destruct (found_year found) as [y|]; [|done]. simpl in H.
  destruct (found_month found) as [m|]; [|done]. simpl in H.
  destruct (found_day found) as [d|]; [|done]. simpl in H.
  by apply datetime_date_calendar in H as (-> & ?).
Qed.

Lemma days_in_month_le y m : (days_in_month y m <= 31)%N.
Proof. unfold days_in_month. repeat case_match; lia. Qed.

(** Reading the printed numbers back. *)
Lemma int_year y :
  (y <= 9999)%N ->
  int (str_of_N y) = Some y /\ int (zfill 4 (str_of_N y)) = Some y.
Proof.
  intros Hy.
  pose (P := fun y =>
    bool_decide (int (str_of_N y) = Some y)
    && bool_decide (int (zfill 4 (str_of_N y)) = Some y)).
  assert (P y = true) as H.
  { apply (forallb_below P 10000); [by vm_compute|lia]. }
  unfold P in H. apply andb_true_iff in H as [H1 H2].
  by apply bool_decide_eq_true in H1, H2.
Qed.

Lemma int_two_digits n :
  (n <= 31)%N -> int (zfill 2 (str_of_N n)) = Some n.
Proof.
  intros Hn.
  pose (P := fun n => bool_decide (int (zfill 2 (str_of_N n)) = Some n)).
  assert (P n = true) as H.
  { apply (forallb_below P 32); [by vm_compute|lia]. }
  by apply bool_decide_eq_true in H.
Qed.

(** [date_digits pad dt stamp]: the stamp is made of the digits of the year,
    of the month and of the day of [dt], month and day on two digits each;
    the year is on four digits when it is 1000 or more or when the C library
    pads it ([pad]), and on fewer otherwise. *)
Definition date_digits (pad : bool) (dt : date) (stamp : str) : Prop :=
  exists ys ms ds : str,
    stamp = ys ++ ms ++ ds
    /\ forallb isdigit stamp = true
    /\ int ys = Some (year dt) /\ int ms = Some (month dt)
    /\ int ds = Some (day dt)
    /\ length ms = 2 /\ length ds = 2
    /\ (if pad || (1000 <=? year dt)%N then length ys = 4
        else 1 <= length ys < 4).

(** [calendar_stamp pad line stamp]: one of the accepted formats reads the
    stripped line as a date of the calendar, and the stamp is made of the
    digits of that date. *)
Definition calendar_stamp (pad : bool) (line stamp : str) : Prop :=
  exists (format : str) (dt : date),
    format ∈ date_formats
    /\ strptime (strip line) format = Some dt
    /\ (1 <= year dt <= 9999)%N /\ (1 <= month dt <= 12)%N
    /\ (1 <= day dt <= days_in_month (year dt) (month dt))%N
    /\ date_digits pad dt stamp.

Lemma strftime_Ymd_calendar pad dt :
  (1 <= year dt <= 9999)%N -> (1 <= month dt <= 12)%N ->
  (1 <= day dt <= days_in_month (year dt) (month dt))%N ->
  date_digits pad dt (strftime_Ymd pad dt).
Proof.
  intros Hy Hm Hd.
  pose proof (days_in_month_le (year dt) (month dt)) as Hdim.
  destruct (year_shape (year dt)) as (Y1 & Y2 & Y3 & Y6 & Y4 & Y5); [lia|].
  destruct (int_year (year dt)) as [I1 I2]; [lia|].
  destruct (two_digits (month dt)) as [M1 M2]; [lia|].
  destruct (two_digits (day dt)) as [D1 D2]; [lia|].
  exists (if pad then zfill 4 (str_of_N (year dt)) else str_of_N (year dt)),
    (zfill 2 (str_of_N (month dt))), (zfill 2 (str_of_N (day dt))).
  split; [done|]. unfold strftime_Ymd. rewrite !forallb_app, M1, D1.
  split; [by destruct pad; rewrite ?Y1, ?Y4|].
  split; [by destruct pad|].
  split; [apply int_two_digits; lia|]. split; [apply int_two_digits; lia|].
  do 2 (split; [done|]).
  destruct pad; simpl; [done|].
  destruct (N.leb_spec 1000 (year dt)) as [H|H]; [by apply Y3|].
  apply Y6 in H. lia.
Qed.

Lemma parse_date_calendar pad line stamp :
  parse_date pad line = Some stamp -> calendar_stamp pad line stamp.
Proof.
  unfold parse_date. intros H.
  apply try_formats_spec in H as (i & format & dt & Hi & Hdt & -> & _).
  exists format, dt. split; [by eapply list_elem_of_lookup_2|].
  split; [done|].
  apply strptime_calendar in Hdt as (Hy & Hm & Hd).
  do 3 (split; [done|]). by apply strftime_Ymd_calendar.
Qed.

(** With four digits for the year the stamp has eight, and the placement
    reads year, month and day at its offsets 0-4, 4-6 and 6-8. *)
Lemma date_digits_eight pad dt stamp :
  date_digits pad dt stamp ->
  (length stamp = 8
   /\ int (slice 0 4 stamp) = Some (year dt)
   /\ int (slice 4 6 stamp) = Some (month dt)
   /\ int (slice 6 8 stamp) = Some (day dt))
  \/ (pad = false /\ 5 <= length stamp < 8 /\ (year dt < 1000)%N
      /\ int (take (length stamp - 4) stamp) = Some (year dt)).
Proof.
  intros (ys & ms & ds & -> & _ & Iy & Im & Id & Lm & Ld & Ly).
  rewrite !length_app, Lm, Ld.
  destruct (pad || (1000 <=? year dt)%N) eqn:Hc.
  - left. split; [lia|]. unfold slice.
    change (Z.to_nat 0) with 0. change (Z.to_nat 4) with 4.
    change (Z.to_nat 6) with 6. change (Z.to_nat 8) with 8.
    change (4 - 0) with 4. change (6 - 4) with 2. change (8 - 6) with 2.
    rewrite drop_0, take_app_length' by done.
    rewrite drop_app_length' by done.
    rewrite take_app_length' by done.
    replace 6 with (length (ys ++ ms)) by (rewrite length_app; lia).
    rewrite app_assoc, drop_app_length.
    rewrite take_ge by lia. done.
  - apply orb_false_iff in Hc as [-> Hc]. apply N.leb_gt in Hc.
    right. split; [done|]. split; [lia|]. split; [done|].
    replace (length ys + (2 + 2) - 4) with (length ys) by lia.
    by rewrite take_app_length.
Qed.

Lemma extract_content pad f stamp :
  extract_date_from_filename pad f = Some stamp ->
  (is_Some (re_match prefix_re f) /\ stamp = take 8 f /\ length stamp = 8
   /\ forallb isdigit stamp = true)
  \/ (exists m line,
        re_match descriptive_re f = Some m /\ group m "1" = Some line
        /\ calendar_stamp pad line stamp).
Proof.
  unfold extract_date_from_filename.
  destruct (re_match prefix_re f) as [m|] eqn:Hm.
  - assert (is_Some (re_match prefix_re f)) as H by eauto.
    destruct (extract_prefix pad f H) as (He & Hlen & Hd).
    unfold extract_date_from_filename in He. rewrite Hm in He.
    rewrite He. intros [= <-]. by left.
  - destruct (re_match descriptive_re f) as [m|]; [|done].
    destruct (group m "1") as [v|] eqn:Hg; [|done]. simpl.
    intros H. right. exists m, v. by apply parse_date_calendar in H.
Qed.

Lemma scan_lines_content E lines : forall d0 w,
  exists r w1,
    scan_lines E d0 lines w = (Ok r, w1) /\ stdin w1 = stdin w
    /\ (r = d0 \/ r = None
        \/ exists stamp line,
             r = Some stamp /\ line ∈ lines
             /\ calendar_stamp (pad_year E) line stamp
             /\ truthy r = true).
Proof.
  induction lines as [|line lines IH]; intros d0 w; simpl.
  - exists d0, w. auto.
  - destruct (parse_date (pad_year E) line) as [stamp|] eqn:Hp.
    + destruct (parse_date_shape _ _ _ Hp) as [_ Ht]. rewrite Ht.
      apply parse_date_calendar in Hp.
      unfold mbind, run_bind.
      match goal with |- context [debug_print ?m ?w0] =>
        destruct (debug_print_world m w0) as (w1 & -> & Hin & _) end.
      exists (Some stamp), w1. split; [done|]. split; [done|].
      right. right. exists stamp, line. split; [done|].
      split; [apply elem_of_cons; by left|]. done.
    + simpl. destruct (IH None w) as (r & w1 & -> & Hin & Hr).
      exists r, w1. split; [done|]. split; [done|].
      destruct Hr as [->|[->|(s & l & -> & Hl & Hr)]]; auto.
      right. right. exists s, l. split; [done|].
      split; [apply elem_of_cons; by right|]. done.
Qed.

(** C3, as the script has it.  A stamp that the resolver takes without
    asking leaves standard input untouched and is either the eight leading
    digits of a basename that matches the prefix pattern, or the digits of
    the date of the calendar that an accepted format reads in the date part
    of a descriptive file name or in a line of the extracted text: the
    year, the month on two digits, the day on two digits, with the year on
    four digits (eight digits in all) when it is 1000 or more or when the C
    library pads it, and on fewer digits otherwise.  Any other stamp was read
    at the prompt and is a line as it was typed, or the suggested date: it
    reaches the placement unchecked. *)
Theorem resolved_stamp_content (E : env) (file_path_str ocr_file : str)
    (w : world) (stamp : str) (w' : world) :
  resolve_date E file_path_str ocr_file w = (Ok stamp, w') ->
  (stdin w' = stdin w
   /\ ((is_Some (re_match prefix_re (basename file_path_str))
        /\ stamp = take 8 (basename file_path_str)
        /\ length stamp = 8 /\ forallb isdigit stamp = true)
       \/ exists line,
            ((exists m,
                re_match descriptive_re (basename file_path_str) = Some m
                /\ group m "1" = Some line)
             \/ line ∈ splitlines (stdout (pdftotext E ocr_file)))
            /\ calendar_stamp (pad_year E) line stamp))
  \/ ((stamp ∈ stdin w
       \/ stamp = strftime_Ymd (pad_year E) (st_ctime E file_path_str))
      /\ exists prompt, Input prompt ∈ trace w').
Proof.
  destruct (extract_date_from_filename (pad_year E) (basename file_path_str))
    as [s|] eqn:He.
  - destruct (extract_shape _ _ _ He) as [_ Ht].
    apply extract_content in He as Hc.
    unfold resolve_date. rewrite He, Ht. unfold mbind, run_bind.
    match goal with |- context [debug_print ?m ?w0] =>
      destruct (debug_print_world m w0) as (w1 & -> & Hin & _) end.
    destruct s as [|c s]; [done|]. intros [= <- <-]. left. split; [done|].
    destruct Hc as [Hc|(m & line & Hm & Hg & Hc)]; [by left|].
    right. exists line. split; [left; by exists m|done].
  - rewrite resolve_date_text by done. unfold mbind, run_bind.
    destruct (scan_lines_content E (splitlines (stdout (pdftotext E ocr_file)))
                None (log w (Pdftotext ocr_file)))
      as (r & w1 & -> & Hin & Hr).
    assert (ask_date E file_path_str w1 = (Ok stamp, w') ->
            (stamp ∈ stdin w
             \/ stamp = strftime_Ymd (pad_year E) (st_ctime E file_path_str))
            /\ exists prompt, Input prompt ∈ trace w') as Hask.
    { intros H. apply ask_date_result in H. by rewrite Hin in H. }
    destruct Hr as [->|[->|(s & line & -> & Hl & Hn & Ht)]];
      [by right; auto..|].
    destruct s as [|c s]; [done|]. intros [= <- <-]. left. split; [done|].
    right. exists line. auto.
Qed.

Lemma resolved_stamp_content_witness :
  resolve_date (text_env 0 three_lines) "/in/scan.pdf"
    "/tmp/tmpq1w2e3/scan.pdf" demo_world
  = (Ok ("20240517" : str),
     log demo_world (Pdftotext "/tmp/tmpq1w2e3/scan.pdf"))
  /\ (stdin (log demo_world (Pdftotext "/tmp/tmpq1w2e3/scan.pdf"))
      = stdin demo_world
      /\ ((is_Some (re_match prefix_re (basename "/in/scan.pdf"))
           /\ ("20240517" : str) = take 8 (basename "/in/scan.pdf")
           /\ length ("20240517" : str) = 8
           /\ forallb isdigit ("20240517" : str) = true)
          \/ exists line,
               ((exists m,
                   re_match descriptive_re (basename "/in/scan.pdf") = Some m
                   /\ group m "1" = Some line)
                \/ line
                   ∈ splitlines
                       (stdout (pdftotext (text_env 0 three_lines)
                                  "/tmp/tmpq1w2e3/scan.pdf")))
               /\ calendar_stamp (pad_year (text_env 0 three_lines)) line
                    "20240517")
      \/ (("20240517" : str) ∈ stdin demo_world
          \/ ("20240517" : str)
             = strftime_Ymd (pad_year (text_env 0 three_lines))
                 (st_ctime (text_env 0 three_lines) "/in/scan.pdf"))
         /\ exists prompt,
              Input prompt
              ∈ trace (log demo_world (Pdftotext "/tmp/tmpq1w2e3/scan.pdf"))).
Proof.
  assert (resolve_date (text_env 0 three_lines) "/in/scan.pdf"
            "/tmp/tmpq1w2e3/scan.pdf" demo_world
          = (Ok ("20240517" : str),
             log demo_world (Pdftotext "/tmp/tmpq1w2e3/scan.pdf"))) as H
    by (vm_compute; reflexivity).
  split; [exact H|].
  exact (resolved_stamp_content (text_env 0 three_lines) "/in/scan.pdf"
           "/tmp/tmpq1w2e3/scan.pdf" demo_world "20240517"
           (log demo_world (Pdftotext "/tmp/tmpq1w2e3/scan.pdf")) H).
Defined.

(** Two stamps that are not eight digits.  The user types a date with
    dashes: it becomes the stamp, ten characters long.  The extracted text
    has a date of the year 999 and the C library does not pad the year:
    the stamp has seven digits. *)
Lemma stamp_is_not_always_eight_digits :
  ((resolve_date (text_env 0 "") "/in/scan.pdf" "/tmp/tmpq1w2e3/scan.pdf"
      (typing [("2024-05-17" : str)])).1
   = Ok ("2024-05-17" : str)
   /\ ~ (length ("2024-05-17" : str) = 8
         /\ forallb isdigit ("2024-05-17" : str) = true))
  /\ (pad_year (text_env 0 "17/05/0999") = false
      /\ (resolve_date (text_env 0 "17/05/0999") "/in/scan.pdf"
            "/tmp/tmpq1w2e3/scan.pdf" demo_world).1
         = Ok ("9990517" : str)
      /\ length ("9990517" : str) <> 8).
Proof.
  split; [split; [by vm_compute|]|].
  - intros [H _]. simpl in H. lia.
  - split; [done|]. split; [by vm_compute|]. simpl. lia.
Qed.

(** ** A missing tool *)

Definition missing_message (util : str) : str :=
  "[ERROR] The " ++ util
  ++ " utility is required but it's not installed. Aborting.".

(** C7.  When [ocrmypdf] or [pdftotext] is not on the execution path, the
    program prints the error for the first missing one and exits with
    status 1 before the scratch folder exists: no file is touched, nothing
    is read from the user, and no tool is started. *)
Theorem missing_tool_aborts (E : env) (a : args) (w : world) :
  which E "ocrmypdf" = false \/ which E "pdftotext" = false ->
  exists util,
    (main E a w).1 = Raise (SystemExit 1)
    /\ exit_status (main E a w).1 = Some 1%Z
    /\ fs (main E a w).2 = fs w
    /\ stdin (main E a w).2 = stdin w
    /\ trace (main E a w).2 = trace w ++ [Stderr (missing_message util)].
Proof.
  intros H.
  exists (if which E "ocrmypdf" then ("pdftotext" : str) else ("ocrmypdf" : str)).
  unfold main, check_dependencies. simpl check_utils.
  unfold mbind, run_bind, set_vars, exit_with_error, error_print, get_vars,
    mbind, run_bind, emit, raise, mret, run_ret.
  simpl in *.
  destruct (log_level a); simpl;
    repeat match goal with
           | |- context [which E ?u] => destruct (which E u) eqn:?; simpl
           end; try done; destruct H; congruence.
Qed.

Definition demo_args : args :=
  {| scan_dir := Some ("/in" : str); dest_dir := "/archive";
     log_level := info; dry_run := false |}.

Definition no_pdftotext : env :=
  {| which := fun util => bool_decide (util = "ocrmypdf");
     platform := "linux"; pad_year := false;
     getcwd := "/home/user"; mkdtemp := "/tmp/tmpq1w2e3";
     scandir := fun _ _ => map list_ascii_of_string ["/in/scan.pdf"];
     ocrmypdf := fun _ => 0%Z;
     pdftotext := fun _ => {| returncode := 0; stdout := "" |};
     st_ctime := fun _ => {| year := 2024; month := 1; day := 31 |} |}.

Lemma missing_tool_aborts_witness :
  which no_pdftotext "pdftotext" = false
  /\ exists util,
       (main no_pdftotext demo_args demo_world).1 = Raise (SystemExit 1)
       /\ exit_status (main no_pdftotext demo_args demo_world).1 = Some 1%Z
       /\ fs (main no_pdftotext demo_args demo_world).2 = fs demo_world
       /\ stdin (main no_pdftotext demo_args demo_world).2 = stdin demo_world
       /\ trace (main no_pdftotext demo_args demo_world).2
          = trace demo_world ++ [Stderr (missing_message util)].
Proof.
  split; [reflexivity|].
  apply (missing_tool_aborts no_pdftotext demo_args demo_world).
  right. reflexivity.
Defined.

(** ** A failing OCR run *)

Lemma for_each_app {A} (l1 l2 : list A) body w :
  for_each (l1 ++ l2) body w = (for_each l1 body;; for_each l2 body) w.
Proof.
  revert w. induction l1 as [|x l1 IH]; intros w; simpl.
  - unfold mbind, run_bind, mret, run_ret.
    by destruct (for_each l2 body w) as [[[]| |] ?].
  - unfold mbind, run_bind in *. destruct (body x w) as [[[]| |] w1]; [|done..].
    apply IH.
Qed.

Lemma rmtree_lookup (d : str) (f : gmap str kind) (p : str) :
  filter (fun kv : str * kind => is_under d kv.1 = false) f !! p
  = if is_under d p then None else f !! p.
Proof.
  destruct (is_under d p) eqn:Hp.
  - apply map_lookup_filter_None. right. intros k _. simpl. congruence.
  - destruct (f !! p) as [k|] eqn:Hf.
    + by apply map_lookup_filter_Some.
    + apply map_lookup_filter_None. by left.
Qed.

Lemma bind_ok {A B} (m : run A) (f : A -> run B) w a w1 :
  m w = (Ok a, w1) -> (m ≫= f) w = f a w1.
Proof. intros H. unfold mbind, run_bind. by rewrite H. Qed.

Lemma bind_raise {A B} (m : run A) (f : A -> run B) w e w1 :
  m w = (Raise e, w1) -> (m ≫= f) w = (Raise e, w1).
Proof. intros H. unfold mbind, run_bind. by rewrite H. Qed.

Lemma info_print_eq msg w :
  info_print msg w
  = (Ok tt, if INFO (vars w) then log w (Stdout ("[INFO] " ++ msg)) else w).
Proof.
  unfold info_print, mbind, run_bind. simpl. by destruct (INFO (vars w)).
Qed.

Lemma run_ocrmypdf_fails E input output w :
  ocrmypdf E input <> 0%Z ->
  run_ocrmypdf E input output w
  = (Raise (CalledProcessError (ocrmypdf E input)),
     log w (Ocrmypdf input output (ocrmypdf E input))).
Proof.
  intros H. apply Z.eqb_neq in H. unfold run_ocrmypdf, mbind, run_bind.
  simpl. by rewrite H.
Qed.

(** C8.  The OCR tool exits with a status other than 0 for the file [f]
    that the run has reached: the run ends there with the exception of the
    failed call, which makes the exit status 1.  After the attempt the only
    further event is the removal of the scratch folder, so the text of [f]
    is not extracted, the files [post] after it are not processed, and
    nothing under the scratch folder is left. *)
Theorem ocr_failure_aborts_run (E : env) (scan dest : str) (recursive : bool)
    (w w1 : world) (pre : list str) (f : str) (post : list str) :
  glob E scan recursive = pre ++ f :: post ->
  for_each pre (process_file E (mkdtemp E) dest) (tempfile_mkdtemp E w).2
  = (Ok tt, w1) ->
  ocrmypdf E f <> 0%Z ->
  let r := process_files E scan dest recursive w in
  r.1 = Raise (CalledProcessError (ocrmypdf E f))
  /\ exit_status r.1 = Some 1%Z
  /\ trace r.2
     = trace w1
       ++ (if INFO (vars w1)
           then [Stdout ("[INFO] Processing " ++ f ++ "...")] else [])
       ++ [Ocrmypdf f (os_path_join (mkdtemp E) [basename f]) (ocrmypdf E f);
           Rmtree (mkdtemp E)]
  /\ (forall p, fs r.2 !! p = if is_under (mkdtemp E) p then None else fs w1 !! p).
Proof.
  intros Hglob Hpre Hocr r. subst r.
  set (w2 := if INFO (vars w1)
             then log w1 (Stdout ("[INFO] " ++ "Processing " ++ f ++ "..."))
             else w1).
  assert (process_file E (mkdtemp E) dest f w1
          = (Raise (CalledProcessError (ocrmypdf E f)),
             log w2 (Ocrmypdf f (os_path_join (mkdtemp E) [basename f])
                       (ocrmypdf E f)))) as Hf.
  { unfold process_file.
    erewrite bind_ok by apply info_print_eq.
    erewrite bind_raise; [done|]. by apply run_ocrmypdf_fails. }
  assert (for_each (glob E scan recursive) (process_file E (mkdtemp E) dest)
            (tempfile_mkdtemp E w).2
          = (Raise (CalledProcessError (ocrmypdf E f)),
             log w2 (Ocrmypdf f (os_path_join (mkdtemp E) [basename f])
                       (ocrmypdf E f)))) as Hall.
  { rewrite Hglob, for_each_app. erewrite bind_ok by exact Hpre.
    simpl for_each. by erewrite bind_raise. }
  unfold process_files.
  erewrite bind_ok by (unfold tempfile_mkdtemp, mbind, run_bind; reflexivity).
  unfold try_finally. cbn zeta.
  unfold tempfile_mkdtemp, mbind, run_bind in Hall. simpl in Hall.
  simpl. rewrite Hall.
  unfold shutil_rmtree, mbind, run_bind. simpl.
  split; [done|]. split; [done|]. split.
  - subst w2. destruct (INFO (vars w1)); simpl; by rewrite <- ?app_assoc.
  - intros p. rewrite rmtree_lookup. by subst w2; destruct (INFO (vars w1)).
Qed.

Definition ocr_fails_on (bad : str) : env :=
  {| which := fun _ => true; platform := "linux"; pad_year := false;
     getcwd := "/home/user"; mkdtemp := "/tmp/tmpq1w2e3";
     scandir := fun _ _ =>
       map list_ascii_of_string
         ["/in/20240517_a.pdf"; "/in/20240518_b.pdf"; "/in/20240519_c.pdf"];
     ocrmypdf := fun input => if bool_decide (input = bad) then 2%Z else 0%Z;
     pdftotext := fun _ => {| returncode := 0; stdout := "" |};
     st_ctime := fun _ => {| year := 2024; month := 1; day := 31 |} |}.

Definition three_files : world :=
  {| vars := initial_globals;
     fs := list_to_map
             (map (fun p => (list_ascii_of_string p, File))
                ["/in/20240517_a.pdf"; "/in/20240518_b.pdf";
                 "/in/20240519_c.pdf"]);
     stdin := []; trace := [] |}.

Lemma ocr_failure_aborts_run_witness :
  (process_files (ocr_fails_on "/in/20240518_b.pdf") "/in" "/archive" true
     three_files).1
  = Raise (CalledProcessError 2)
  /\ fs (process_files (ocr_fails_on "/in/20240518_b.pdf") "/in" "/archive"
           true three_files).2 !! ("/tmp/tmpq1w2e3" : str) = None.
Proof.
  pose proof (ocr_failure_aborts_run (ocr_fails_on "/in/20240518_b.pdf")
                "/in" "/archive" true three_files
                (for_each [("/in/20240517_a.pdf" : str)]
                   (process_file (ocr_fails_on "/in/20240518_b.pdf")
                      "/tmp/tmpq1w2e3" "/archive")
                   (tempfile_mkdtemp (ocr_fails_on "/in/20240518_b.pdf")
                      three_files).2).2
                [("/in/20240517_a.pdf" : str)] "/in/20240518_b.pdf"
                [("/in/20240519_c.pdf" : str)]
                ltac:(vm_compute; reflexivity) ltac:(vm_compute; reflexivity)
                ltac:(vm_compute; discriminate)) as (H1 & _ & _ & H4).
  split; [exact H1|]. rewrite H4. reflexivity.
Defined.

(** ** The events of a run *)

(** What the processing of one file may add to the trace; [dry] is the
    value of [DRY_RUN]. *)
Definition file_event (dry : bool) (file_path_str : str) (e : event) : Prop :=
  match e with
  | Ocrmypdf input _ _ => input = file_path_str
  | Move _ _ => dry = false
  | Remove p => dry = false /\ p = file_path_str
  | Stderr _ | Rmtree _ => False
  | _ => True
  end.

Definition run_event (dry : bool) (files : list str) (e : event) : Prop :=
  (exists file_path_str, file_path_str ∈ files
                         /\ file_event dry file_path_str e)
  \/ exists d, e = Rmtree d.

Lemma keeps_scan_lines Iv (P : event -> Prop) E lines :
  (forall m, P (Stdout m)) -> forall d0, keeps Iv P (scan_lines E d0 lines).
Proof.
  intros HP. induction lines as [|line lines IH]; intros d0; simpl.
  - apply keeps_ret.
  - destruct (truthy _); [|apply IH].
    apply keeps_bind; [by apply keeps_print|]. intros _. apply keeps_ret.
Qed.

Lemma keeps_resolve_date Iv (P : event -> Prop) E file_path_str ocr_file :
  (forall e, consults_text_or_user e = true \/ (exists m, e = Stdout m) -> P e) ->
  keeps Iv P (resolve_date E file_path_str ocr_file).
Proof.
  intros HP. unfold resolve_date.
  apply keeps_bind.
  - destruct (truthy _).
    + apply keeps_bind; [apply keeps_print; eauto|]. intros _. apply keeps_ret.
    + apply keeps_bind.
      * unfold run_pdftotext. apply keeps_bind; [|intros _; apply keeps_ret].
        apply keeps_emit, HP. by left.
      * intros result. apply keeps_scan_lines. eauto.
  - intros [[|c s]|]; try apply keeps_ret;
      unfold ask_date;
      (apply keeps_bind; [apply keeps_emit, HP; by left|]; intros _);
      (apply keeps_bind; [apply keeps_get_stdin|]; intros pending);
      by apply keeps_prompt_loop.
Qed.

Lemma keeps_process_file (dry : bool) (P : event -> Prop) E tmp_dir dest_dir
    file_path_str :
  (forall e, file_event dry file_path_str e -> P e) ->
  keeps (fun v => dry = DRY_RUN v) P
    (process_file E tmp_dir dest_dir file_path_str).
Proof.
  intros HP. unfold process_file.
  apply keeps_bind; [apply keeps_print; intros; by apply HP|]. intros _.
  apply keeps_bind; [apply keeps_run_ocrmypdf; intros; by apply HP|]. intros _.
  apply keeps_bind.
  - apply keeps_resolve_date. intros e [He|[m ->]]; apply HP; [|done].
    by destruct e.
  - intros date_stamp. eapply keeps_weaken; [|apply keeps_place].
    intros e He. apply HP. by destruct e.
Qed.

Lemma keeps_for_each_in {A} Iv P (l : list A) body :
  (forall x, x ∈ l -> keeps Iv P (body x)) -> keeps Iv P (for_each l body).
Proof.
  induction l as [|x l IH]; intros Hb; simpl.
  - apply keeps_ret.
  - apply keeps_bind; [apply Hb, list_elem_of_here|]. intros _.
    apply IH. intros y Hy. by apply Hb, list_elem_of_further.
Qed.

Lemma keeps_process_files (dry : bool) (P : event -> Prop) E scan dest recursive :
  (forall e, run_event dry (glob E scan recursive) e -> P e) ->
  keeps (fun v => dry = DRY_RUN v) P (process_files E scan dest recursive).
Proof.
  intros HP. unfold process_files.
  apply keeps_bind.
  { unfold tempfile_mkdtemp. keeps_auto. }
  intros tmp_dir. apply keeps_try_finally.
  - apply keeps_for_each_in. intros file_path_str Hin.
    apply keeps_process_file. intros e He. apply HP. left. eauto.
  - unfold shutil_rmtree.
    apply keeps_bind; [apply keeps_emit, HP; right; eauto|]. intros _.
    keeps_auto.
Qed.

Lemma keeps_check_dependencies Iv (P : event -> Prop) E :
  (forall m, P (Stderr m)) -> keeps Iv P (check_dependencies E).
Proof.
  intros HP. unfold check_dependencies.
  generalize (map list_ascii_of_string ["ocrmypdf"; "pdftotext"]).
  intros utils. induction utils as [|util utils IH]; simpl.
  - apply keeps_ret.
  - apply keeps_bind; [|intros _; apply IH].
    destruct (which E util); [apply keeps_ret|].
    unfold exit_with_error, error_print. keeps_auto.
Qed.

(** The events of a whole run: those of the enumerated files, the removal of
    the scratch folder and error messages; the moves and removals only
    outside dry-run mode. *)
Lemma main_events (E : env) (a : args) (w : world) :
  exists files t,
    (forall p, p ∈ files -> fnmatch_pdf (basename p) = true)
    /\ trace (main E a w).2 = trace w ++ t
    /\ Forall (fun e => run_event (dry_run a) files e \/ exists m, e = Stderr m) t.
Proof.
  unfold main.
  set (v := match log_level a with
            | info => _ | warning => _ | error => _ | debug => _ end).
  set (scan := match scan_dir a with Some (c :: s) => _ | _ => _ end).
  set (recursive := match scan_dir a with Some _ => true | None => false end).
  exists (glob E scan recursive).
  assert (keeps (fun v => dry_run a = DRY_RUN v)
            (fun e => run_event (dry_run a) (glob E scan recursive) e
                      \/ exists m, e = Stderr m)
            (check_dependencies E;;
             process_files E scan (dest_dir a) recursive)) as Hk.
  { apply keeps_bind; [apply keeps_check_dependencies; eauto|]. intros _.
    apply keeps_process_files. auto. }
  destruct (Hk {| vars := v; fs := fs w; stdin := stdin w; trace := trace w |})
    as (_ & t & Ht & HP).
  { subst v. by destruct (log_level a). }
  exists t. split; [|split; [exact Ht|exact HP]].
  intros p Hp. unfold glob in Hp. by apply list_elem_of_filter in Hp as [Hp _].
Qed.

(** ** Dry-run mode *)

(** In dry-run mode no file is moved and none is removed. *)
Lemma dry_run_moves_nothing (E : env) (a : args) (w : world) :
  dry_run a = true ->
  exists t,
    trace (main E a w).2 = trace w ++ t
    /\ Forall (fun e => match e with
                        | Move _ _ | Remove _ => False
                        | _ => True
                        end) t.
Proof.
  intros Hdry. destruct (main_events E a w) as (files & t & _ & Ht & HP).
  exists t. split; [done|]. eapply Forall_impl; [exact HP|].
  rewrite Hdry. intros e [[(fp & _ & He)|[d ->]]|[m ->]]; try done.
  destruct e; simpl in He; try done. by destruct He.
Qed.

Definition dry_args : args :=
  {| scan_dir := Some ("/in" : str); dest_dir := "/archive";
     log_level := info; dry_run := true |}.

(** C4, at a run that shows the defect.  A dry run over a file dated
    2024-05-17 ends normally, and the folder [/archive/2024/05/17], which
    did not exist and is not in the scratch folder, exists afterwards:
    [os.makedirs] is called before [DRY_RUN] is tested. *)
Theorem dry_run_creates_folders :
  let r := main (ocr_fails_on "") dry_args three_files in
  exit_status r.1 = Some 0%Z
  /\ fs three_files !! ("/archive/2024/05/17" : str) = None
  /\ fs r.2 !! ("/archive/2024/05/17" : str) = Some Dir
  /\ is_under (mkdtemp (ocr_fails_on "")) "/archive/2024/05/17" = false
  /\ Makedirs "/archive/2024/05/17" ∈ trace r.2.
Proof.
  vm_compute. repeat split; try reflexivity.
  repeat first [apply list_elem_of_here | apply list_elem_of_further].
Qed.

(** ** Path components *)

Lemma rfind_from_spec c s : forall i last,
  let r := rfind_from c s i last in
  (r = last /\ forallb (fun x => negb (is_char c x)) s = true)
  \/ (exists n, r = (i + Z.of_nat n)%Z /\ s !! n = Some c
                /\ forallb (fun x => negb (is_char c x)) (drop (S n) s) = true).
Proof.
  induction s as [|x s IH]; intros i last; simpl; [by left|].
  destruct (IH (i + 1)%Z (if is_char c x then i else last)) as [[Hr Hs]|Hr].
  - destruct (is_char c x) eqn:Hx.
    + right. exists 0. simpl. rewrite drop_0.
      apply is_char_true in Hx as ->. split; [lia|done].
    + left. by rewrite Hs.
  - right. destruct Hr as (n & Hr & Hn & Hs). exists (S n).
    split; [lia|done].
Qed.

Lemma rfind_spec s c :
  (rfind s c = (-1)%Z /\ forallb (fun x => negb (is_char c x)) s = true)
  \/ (exists n, rfind s c = Z.of_nat n /\ s !! n = Some c
                /\ forallb (fun x => negb (is_char c x)) (drop (S n) s) = true).
Proof.
  destruct (rfind_from_spec c s 0 (-1)) as [?|(n & ? & ?)]; [by left|].
  right. exists n. by rewrite Z.add_0_l in *.
Qed.

Definition no_sep (s : str) : Prop :=
  forallb (fun x => negb (is_char "/" x)) s = true.

Lemma basename_no_sep p : no_sep (basename p).
Proof.
  unfold basename, no_sep.
  destruct (rfind_spec p "/") as [[-> H]|(n & -> & _ & H)].
  - by rewrite drop_0.
  - by replace (Z.to_nat (Z.of_nat n + 1)) with (S n) by lia.
Qed.

Lemma no_sep_not_startswith s : no_sep s -> startswith s "/" = false.
Proof.
  unfold no_sep. destruct s as [|x s]; [done|]. simpl.
  intros H. apply andb_true_iff in H as [H _]. by apply negb_true_iff in H.
Qed.

Lemma no_sep_app s t : no_sep (s ++ t) <-> no_sep s /\ no_sep t.
Proof. unfold no_sep. by rewrite forallb_app, andb_true_iff. Qed.

(** The two parts of [splitext] make up the path, and the extension is
    empty or starts with the dot. *)
Lemma splitext_spec p :
  p = (splitext p).1 ++ (splitext p).2
  /\ ((splitext p).2 = [] \/ exists e, (splitext p).2 = "."%char :: e).
Proof.
  unfold splitext.
  destruct (rfind p "/" <? rfind p ".")%Z eqn:Hlt; simpl;
    [|by rewrite app_nil_r; auto].
  destruct (forallb _ _); simpl; [by rewrite app_nil_r; auto|].
  rewrite take_drop. split; [done|]. right.
  destruct (rfind_spec p ".") as [[Hr _]|(n & Hr & Hn & _)].
  - destruct (rfind_spec p "/") as [[Hs _]|(m & Hs & _)]; lia.
  - rewrite Hr, Nat2Z.id. rewrite (drop_S _ _ _ Hn). eauto.
Qed.

Lemma splitext_no_sep p : no_sep p -> no_sep (splitext p).1.
Proof.
  intros Hp. destruct (splitext_spec p) as [H _]. rewrite H in Hp.
  by apply no_sep_app in Hp as [? _].
Qed.

(** A name [stem.pdf] whose stem is not made of dots only has the extension
    [.pdf]. *)
Lemma splitext_pdf stem :
  no_sep stem -> forallb (is_char ".") stem = false ->
  splitext (stem ++ ".pdf") = (stem, list_ascii_of_string ".pdf").
Proof.
  intros Hsep Hdots. unfold splitext.
  assert (rfind (stem ++ ".pdf") "/" = (-1)%Z) as ->.
  { destruct (rfind_spec (stem ++ ".pdf") "/") as [[H _]|(n & _ & Hn & _)];
      [done|].
    assert (no_sep (stem ++ ".pdf")) as Hall by (by apply no_sep_app).
    unfold no_sep in Hall. rewrite forallb_forall in Hall.
    apply list_elem_of_lookup_2, list_elem_of_In, Hall in Hn.
    by rewrite (proj2 (is_char_true "/" "/") eq_refl) in Hn. }
  assert (rfind (stem ++ ".pdf") "." = Z.of_nat (length stem)) as ->.
  { destruct (rfind_spec (stem ++ ".pdf") ".") as [[_ H]|(n & -> & Hn & H)].
    - rewrite forallb_app in H. by apply andb_true_iff in H as [_ H].
    - f_equal. destruct (Nat.lt_trichotomy n (length stem)) as [Hlt|[->|Hgt]];
        [|done|].
      + rewrite drop_app_le in H by lia. rewrite forallb_app in H.
        by apply andb_true_iff in H as [_ H].
      + rewrite lookup_app_r in Hn by lia.
        destruct (n - length stem) as [|[|[|[|k]]]] eqn:Hk; simpl in Hn;
          try done; lia. }
  replace (-1 <? Z.of_nat (length stem))%Z with true
    by (symmetry; apply Z.ltb_lt; lia).
  unfold slice. simpl. rewrite Nat2Z.id, Nat.sub_0_r, drop_0.
  rewrite take_app_length, Hdots, drop_app_length. done.
Qed.

(** ** The destination of a file *)

(** The names that the placement tries, in this order: the basename, then
    the stem followed by [_1], [_2], ... and [.pdf]. *)
Definition name (file_path_str : str) (n : N) : str :=
  if (n =? 0)%N then basename file_path_str
  else (splitext (basename file_path_str)).1 ++ "_" ++ str_of_N n ++ ".pdf".

(** A folder as [os.path.join] continues it: with a separator at its end,
    unless it is empty. *)
Definition with_sep (d : str) : str :=
  if match d with [] => true | _ => endswith d "/" end then d else d ++ "/".

Lemma join_step_relative path b :
  startswith b "/" = false -> join_step path b = with_sep path ++ b.
Proof.
  intros Hb. unfold join_step, with_sep. rewrite Hb.
  destruct path as [|c path]; [done|].
  destruct (endswith _ _); [done|]. by rewrite <- app_assoc.
Qed.

Lemma name_relative file_path_str n :
  startswith (name file_path_str n) "/" = false.
Proof.
  unfold name. destruct (n =? 0)%N.
  - apply no_sep_not_startswith, basename_no_sep.
  - pose proof (splitext_no_sep _ (basename_no_sep file_path_str)) as H.
    destruct ((splitext (basename file_path_str)).1) as [|c s]; [done|].
    by apply no_sep_not_startswith in H.
Qed.

Lemma str_of_N_inj n m : str_of_N n = str_of_N m -> n = m.
Proof.
  unfold str_of_N. intros H.
  apply (f_equal string_of_list_ascii) in H.
  rewrite !string_of_list_ascii_of_string in H. by apply (inj pretty).
Qed.

Lemma name_inj file_path_str n m :
  name file_path_str n = name file_path_str m -> n = m.
Proof.
  unfold name. destruct (splitext_spec (basename file_path_str)) as [Hb He].
  destruct (N.eqb_spec n 0) as [->|Hn], (N.eqb_spec m 0) as [->|Hm];
    [done| | |].
  - intros H. rewrite Hb in H at 1. apply app_inv_head in H.
    destruct He as [He|[e He]]; by rewrite He in H.
  - intros H. rewrite Hb in H at 2. apply app_inv_head in H.
    destruct He as [He|[e He]]; by rewrite He in H.
  - intros H. apply app_inv_head in H. simpl in H. injection H as H.
    by apply app_inv_tail, str_of_N_inj in H.
Qed.

Section Placement.
Variables (f : gmap str kind) (dest_folder file_path_str : str).

Let stem : str := (splitext (basename file_path_str)).1.
Let dest_file (n : N) : str := os_path_join dest_folder [name file_path_str n].

Lemma dest_file_eq n : dest_file n = with_sep dest_folder ++ name file_path_str n.
Proof. apply join_step_relative, name_relative. Qed.

Lemma dest_file_inj n m : dest_file n = dest_file m -> n = m.
Proof.
  rewrite !dest_file_eq. intros H. by apply app_inv_head, name_inj in H.
Qed.

Lemma dest_file_succ n :
  os_path_join dest_folder [stem ++ "_" ++ str_of_N (n + 1) ++ ".pdf"]
  = dest_file (n + 1).
Proof.
  unfold dest_file, name. by destruct (N.eqb_spec (n + 1) 0); [lia|].
Qed.

(** The loop returns the first free name at or after the one it starts
    with. *)
Lemma while_exists_sound fuel : forall n r,
  while_exists fuel f dest_folder stem (dest_file n) (n + 1) = Some r ->
  exists m, (n <= m)%N /\ r = dest_file m /\ exists_ f (dest_file m) = false
            /\ forall k, (n <= k < m)%N -> exists_ f (dest_file k) = true.
Proof.
  induction fuel as [|fuel IH]; intros n r H; [done|].
  cbn [while_exists] in H.
  destruct (exists_ f (dest_file n)) eqn:Hn.
  - rewrite dest_file_succ in H.
    apply IH in H as (m & Hm & -> & Hfree & Hbusy).
    exists m. split; [lia|]. split; [done|]. split; [done|].
    intros k Hk. destruct (N.eq_dec k n) as [->|]; [done|].
    apply Hbusy. lia.
  - injection H as <-. exists n. split; [lia|]. split; [done|].
    split; [done|]. intros k Hk. lia.
Qed.

(** It returns when a free name is within its reach. *)
Lemma while_exists_complete fuel : forall n m,
  (n <= m)%N -> (m < n + N.of_nat fuel)%N ->
  exists_ f (dest_file m) = false ->
  is_Some (while_exists fuel f dest_folder stem (dest_file n) (n + 1)).
Proof.
  induction fuel as [|fuel IH]; intros n m Hnm Hm Hfree; [lia|].
  cbn [while_exists].
  destruct (exists_ f (dest_file n)) eqn:Hn; [|eauto].
  rewrite dest_file_succ. apply (IH _ m); [|lia|done].
  destruct (N.eq_dec m n) as [->|]; [congruence|lia].
Qed.

(** Among one more name than the file system has nodes, one is free. *)
Lemma free_name_exists :
  exists m, (1 <= m <= N.of_nat (size f) + 1)%N
            /\ exists_ f (dest_file m) = false.
Proof.
  set (ns := map N.of_nat (seq 1 (S (size f)))).
  destruct (decide (Forall (fun n => exists_ f (dest_file n) = true) ns))
    as [Hall|Hex].
  - exfalso.
    assert (NoDup (dest_file <$> ns)) as Hnd.
    { apply NoDup_fmap_2_strong.
      - intros n m _ _. apply dest_file_inj.
      - apply NoDup_fmap_2; [intros x y; apply Nat2N.inj|].
        apply NoDup_ListNoDup, seq_NoDup. }
    assert (list_to_set (C := gset str) (dest_file <$> ns) ⊆ dom f) as Hsub.
    { intros p Hp. apply elem_of_list_to_set, list_elem_of_fmap in Hp
        as (n & -> & Hn).
      rewrite Forall_forall in Hall. apply Hall in Hn.
      unfold exists_ in Hn. apply bool_decide_eq_true in Hn.
      by apply elem_of_dom. }
    apply subseteq_size in Hsub.
    rewrite size_list_to_set, size_dom in Hsub by done.
    subst ns. rewrite !length_fmap, length_seq in Hsub. lia.
  - apply not_Forall_Exists in Hex; [|apply _].
    apply Exists_exists in Hex as (m & Hm & Hfree).
    exists m. split.
    + subst ns. apply list_elem_of_fmap in Hm as (k & -> & Hk).
      apply list_elem_of_In, in_seq in Hk. lia.
    + by apply not_true_is_false.
Qed.

(** The loop of [place] leaves, with the first free name. *)
Lemma while_exists_first_free :
  exists n,
    while_exists (S (S (size f))) f dest_folder stem (dest_file 0) 1
    = Some (dest_file n)
    /\ exists_ f (dest_file n) = false
    /\ forall k, (k < n)%N -> exists_ f (dest_file k) = true.
Proof.
  destruct free_name_exists as (m & Hm & Hfree).
  destruct (while_exists_complete (S (S (size f))) 0 m) as [r Hr];
    [lia|lia|done|].
  destruct (while_exists_sound _ _ _ Hr) as (n & _ & -> & Hn & Hbusy).
  exists n. split; [exact Hr|]. split; [done|].
  intros k Hk. apply Hbusy. lia.
Qed.
End Placement.

Lemma digit_not_sep c : isdigit c = true -> is_char "/" c = false.
Proof.
  unfold isdigit, between, is_char. intros H.
  apply andb_true_iff in H as [H _]. apply N.leb_le in H.
  apply N.eqb_neq. change (code "/") with 47%N. lia.
Qed.

Lemma endswith_snoc s c x : endswith (s ++ [c]) x = is_char x c.
Proof. unfold endswith. by rewrite rev_app_distr. Qed.

Lemma join_step_snoc s c b :
  startswith b "/" = false -> is_char "/" c = false ->
  join_step (s ++ [c]) b = s ++ [c] ++ "/" ++ b.
Proof.
  intros Hb Hc. rewrite join_step_relative by done. unfold with_sep.
  rewrite endswith_snoc, Hc. destruct (s ++ [c]) eqn:Hs.
  - by destruct s.
  - by rewrite <- Hs, <- !app_assoc.
Qed.

(** With a stamp of eight digits the folder is the destination root
    followed by year, month and day. *)
Lemma dest_folder_digits dest_dir date_stamp b :
  length date_stamp = 8 -> forallb isdigit date_stamp = true ->
  startswith b "/" = false ->
  os_path_join
    (os_path_join dest_dir
       [slice 0 4 date_stamp; slice 4 6 date_stamp; slice 6 8 date_stamp]) [b]
  = with_sep dest_dir ++ take 4 date_stamp ++ "/"
    ++ take 2 (drop 4 date_stamp) ++ "/" ++ drop 6 date_stamp ++ "/" ++ b.
Proof.
  intros Hlen Hd Hb.
  destruct date_stamp as [|c1 [|c2 [|c3 [|c4 [|c5 [|c6 [|c7 [|c8 [|]]]]]]]]];
    try done.
  simpl in Hd.
  repeat (apply andb_true_iff in Hd as [?%digit_not_sep Hd]).
  unfold os_path_join, slice. simpl.
  rewrite (join_step_relative dest_dir) by (simpl; done).
  change [c1; c2; c3; c4] with ([c1; c2; c3] ++ [c4]).
  rewrite app_assoc, join_step_snoc by done.
  change [c5; c6] with ([c5] ++ [c6]).
  rewrite !app_assoc, join_step_snoc by done.
  change [c7; c8] with ([c7] ++ [c8]).
  rewrite !app_assoc, join_step_snoc by done.
  by rewrite <- !app_assoc.
Qed.

(** With at least seven characters and no separator among the first eight,
    the folder is the destination root followed by the characters 0-4, 4-6
    and 6-8 of the stamp. *)
Lemma dest_folder_layout dest_dir date_stamp b :
  7 <= length date_stamp -> no_sep (take 8 date_stamp) ->
  startswith b "/" = false ->
  os_path_join
    (os_path_join dest_dir
       [slice 0 4 date_stamp; slice 4 6 date_stamp; slice 6 8 date_stamp]) [b]
  = with_sep dest_dir ++ slice 0 4 date_stamp ++ "/"
    ++ slice 4 6 date_stamp ++ "/" ++ slice 6 8 date_stamp ++ "/" ++ b.
Proof.
  intros Hlen Hd Hb.
  destruct date_stamp as [|c1 [|c2 [|c3 [|c4 [|c5 [|c6 [|c7 rest]]]]]]];
    simpl in Hlen; try lia.
  unfold no_sep in Hd.
  destruct rest as [|c8 rest]; simpl in Hd;
    repeat (apply andb_true_iff in Hd as [?%negb_true_iff Hd]);
    unfold os_path_join, slice; simpl;
    rewrite (join_step_relative dest_dir) by (simpl; done);
    change [c1; c2; c3; c4] with ([c1; c2; c3] ++ [c4]);
    rewrite app_assoc, join_step_snoc by done;
    change [c5; c6] with ([c5] ++ [c6]);
    rewrite !app_assoc, join_step_snoc by done.
  - match goal with |- join_step (?p ++ ?a ++ ?s ++ [c7]) _ = _ =>
      replace (p ++ a ++ s ++ [c7]) with (((p ++ a) ++ s) ++ [c7])
        by (by rewrite <- !app_assoc)
    end.
    rewrite join_step_snoc by done. by rewrite <- !app_assoc.
  - rewrite take_0. change [c7; c8] with ([c7] ++ [c8]).
    rewrite !app_assoc, join_step_snoc by done. by rewrite <- !app_assoc.
Qed.

(** A name made of dots and [.pdf] has no extension: the whole name is the
    stem. *)
Lemma splitext_dots stem :
  forallb (is_char ".") stem = true ->
  splitext (stem ++ ".pdf") = (stem ++ ".pdf", []).
Proof.
  intros Hdots. unfold splitext.
  assert (no_sep stem) as Hsep.
  { unfold no_sep. rewrite forallb_forall in Hdots. apply forallb_forall.
    intros x Hx. apply Hdots, is_char_true in Hx as ->. done. }
  assert (rfind (stem ++ ".pdf") "/" = (-1)%Z) as ->.
  { destruct (rfind_spec (stem ++ ".pdf") "/") as [[H _]|(n & _ & Hn & _)];
      [done|].
    assert (no_sep (stem ++ ".pdf")) as Hall by (by apply no_sep_app).
    unfold no_sep in Hall. rewrite forallb_forall in Hall.
    apply list_elem_of_lookup_2, list_elem_of_In, Hall in Hn.
    by rewrite (proj2 (is_char_true "/" "/") eq_refl) in Hn. }
  assert (rfind (stem ++ ".pdf") "." = Z.of_nat (length stem)) as ->.
  { destruct (rfind_spec (stem ++ ".pdf") ".") as [[_ H]|(n & -> & Hn & H)].
    - rewrite forallb_app in H. by apply andb_true_iff in H as [_ H].
    - f_equal. destruct (Nat.lt_trichotomy n (length stem)) as [Hlt|[->|Hgt]];
        [|done|].
      + rewrite drop_app_le in H by lia. rewrite forallb_app in H.
        by apply andb_true_iff in H as [_ H].
      + rewrite lookup_app_r in Hn by lia.
        destruct (n - length stem) as [|[|[|[|k]]]] eqn:Hk; simpl in Hn;
          try done; lia. }
  replace (-1 <? Z.of_nat (length stem))%Z with true
    by (symmetry; apply Z.ltb_lt; lia).
  unfold slice. simpl. rewrite Nat2Z.id, Nat.sub_0_r, drop_0.
  by rewrite take_app_length, Hdots.
Qed.

(** C5, as the script has it.  The destination of a file is a name in the
    folder that [os.path.join] makes of the destination root and of the
    characters 0-4, 4-6 and 6-8 of the stamp.  The names are tried in the
    order basename, stem_1.pdf, stem_2.pdf, ...: the loop ends and gives the
    first one that does not exist, and every counter value is reached on
    some file system.  When the stamp has seven characters or more and no
    [/] among its first eight, the folder is root/YYYY/MM/DD with the three
    character ranges; nothing is said for the other stamps, which the
    prompt lets through.  For a basename [stem.pdf] the counter goes right
    before [.pdf], unless the stem is empty or made of dots: then it goes
    after the whole basename.  And [place] does what the loop says: once
    [os.makedirs] has made the folder, it announces the first name that is
    free there and, outside dry-run mode, moves the searchable copy to it
    and removes the source; an error of [os.makedirs] ends it. *)
Theorem destination_is_first_free_name (f : gmap str kind)
    (dest_dir date_stamp file_path_str : str) :
  let dest_folder :=
    os_path_join dest_dir
      [slice 0 4 date_stamp; slice 4 6 date_stamp; slice 6 8 date_stamp] in
  let stem := (splitext (basename file_path_str)).1 in
  let dest_file n := os_path_join dest_folder [name file_path_str n] in
  (exists n,
     while_exists (S (S (size f))) f dest_folder stem (dest_file 0%N) 1
     = Some (dest_file n)
     /\ exists_ f (dest_file n) = false
     /\ forall k, (k < n)%N -> exists_ f (dest_file k) = true)
  /\ (forall n, exists f' : gmap str kind,
        while_exists (S (S (size f'))) f' dest_folder stem (dest_file 0%N) 1
        = Some (dest_file n))
  /\ (7 <= length date_stamp -> no_sep (take 8 date_stamp) ->
      forall n,
        dest_file n
        = with_sep dest_dir ++ slice 0 4 date_stamp ++ "/"
          ++ slice 4 6 date_stamp ++ "/" ++ slice 6 8 date_stamp ++ "/"
          ++ name file_path_str n)
  /\ (forall stem', basename file_path_str = stem' ++ ".pdf" ->
      forall n, n <> 0%N ->
        name file_path_str n
        = (if forallb (is_char ".") stem' then stem' ++ ".pdf" else stem')
          ++ "_" ++ str_of_N n ++ ".pdf")
  /\ (forall (ocr_file : str) (w : world),
        match makedirs dest_folder w with
        | (Ok _, w1) =>
            exists n,
              exists_ (fs w1) (dest_file n) = false
              /\ (forall k, (k < n)%N -> exists_ (fs w1) (dest_file k) = true)
              /\ place dest_dir file_path_str ocr_file date_stamp w
                 = (info_print ("Moving processed file to " ++ dest_file n);;
                    v ← get_vars;
                    if DRY_RUN v then mret tt
                    else shutil_move ocr_file (dest_file n);;
                         os_remove file_path_str) w1
        | (Raise e, w1) =>
            place dest_dir file_path_str ocr_file date_stamp w = (Raise e, w1)
        | (Hang, w1) =>
            place dest_dir file_path_str ocr_file date_stamp w = (Hang, w1)
        end).
Proof.
  intros dest_folder stem dest_file.
  split; [apply while_exists_first_free|]. split; [|split; [|split]].
  - intros n.
    set (ks := map N.of_nat (seq 0 (N.to_nat n))).
    set (f' := gset_to_gmap File (list_to_set (C := gset str) (dest_file <$> ks))).
    assert (forall k, exists_ f' (dest_file k) = true <-> (k < n)%N) as Hf'.
    { intros k. unfold exists_. rewrite bool_decide_eq_true.
      unfold f'. rewrite <- elem_of_dom, dom_gset_to_gmap, elem_of_list_to_set,
        list_elem_of_fmap. split.
      - intros (k' & Hk' & Hin). apply dest_file_inj in Hk' as <-.
        subst ks. apply list_elem_of_fmap in Hin as (i & -> & Hi).
        apply list_elem_of_In, in_seq in Hi. lia.
      - intros Hk. exists k. split; [done|].
        subst ks. apply list_elem_of_fmap. exists (N.to_nat k).
        split; [by rewrite N2Nat.id|]. apply list_elem_of_In, in_seq. lia. }
    exists f'.
    destruct (while_exists_first_free f' dest_folder file_path_str)
      as (m & Hr & Hfree & Hbusy).
    assert (m = n) as ->; [|exact Hr].
    destruct (N.lt_trichotomy m n) as [Hlt|[->|Hgt]]; [|done|].
    + apply Hf' in Hlt. unfold dest_file in *. congruence.
    + apply Hbusy in Hgt. apply Hf' in Hgt. lia.
  - intros Hlen Hd n. apply dest_folder_layout; [done..|apply name_relative].
  - intros stem' Hb n Hn. unfold name.
    destruct (N.eqb_spec n 0); [done|]. rewrite Hb.
    destruct (forallb (is_char ".") stem') eqn:Hdots.
    + by rewrite splitext_dots.
    + rewrite splitext_pdf; [done| |done].
      pose proof (basename_no_sep file_path_str) as Hs. rewrite Hb in Hs.
      by apply no_sep_app in Hs as [? _].
  - intros ocr_file w. unfold place. fold dest_folder.
    destruct (makedirs dest_folder w) as [[[]|e|] w1] eqn:Hm.
    + destruct (while_exists_first_free (fs w1) dest_folder file_path_str)
        as (n & Hr & Hfree & Hbusy).
      exists n. split; [done|]. split; [done|].
      erewrite bind_ok by exact Hm.
      unfold mbind at 1, run_bind at 1, get_fs. lazy beta iota zeta.
      change (os_path_join dest_folder [basename file_path_str])
        with (os_path_join dest_folder [name file_path_str 0]).
      by rewrite Hr.
    + by erewrite bind_raise by exact Hm.
    + unfold mbind at 1, run_bind at 1. by rewrite Hm.
Qed.

(** The folder of the 17th of May 2024 with [foo.pdf] in it. *)
Definition foo_archived : gmap str kind :=
  {[ ("/archive/2024/05/17/foo.pdf" : str) := File ]}.

Lemma destination_is_first_free_name_witness :
  (7 <= length ("20240517" : str)
   /\ no_sep (take 8 ("20240517" : str))
   /\ basename "/in/foo.pdf" = ("foo" : str) ++ ".pdf"
   /\ exists_ foo_archived "/archive/2024/05/17/foo.pdf" = true
   /\ while_exists (S (S (size foo_archived))) foo_archived
        "/archive/2024/05/17" (splitext (basename "/in/foo.pdf")).1
        (os_path_join "/archive/2024/05/17" [basename "/in/foo.pdf"]) 1
      = Some ("/archive/2024/05/17/foo_1.pdf" : str))
  /\ (exists n,
        while_exists (S (S (size foo_archived))) foo_archived
          (os_path_join "/archive"
             [slice 0 4 "20240517"; slice 4 6 "20240517";
              slice 6 8 "20240517"])
          (splitext (basename "/in/foo.pdf")).1
          (os_path_join
             (os_path_join "/archive"
                [slice 0 4 "20240517"; slice 4 6 "20240517";
                 slice 6 8 "20240517"])
             [name "/in/foo.pdf" 0]) 1
        = Some (os_path_join
                  (os_path_join "/archive"
                     [slice 0 4 "20240517"; slice 4 6 "20240517";
                      slice 6 8 "20240517"])
                  [name "/in/foo.pdf" n])
        /\ exists_ foo_archived
             (os_path_join
                (os_path_join "/archive"
                   [slice 0 4 "20240517"; slice 4 6 "20240517";
                    slice 6 8 "20240517"])
                [name "/in/foo.pdf" n]) = false
        /\ forall k, (k < n)%N ->
             exists_ foo_archived
               (os_path_join
                  (os_path_join "/archive"
                     [slice 0 4 "20240517"; slice 4 6 "20240517";
                      slice 6 8 "20240517"])
                  [name "/in/foo.pdf" k]) = true)
  /\ os_path_join
       (os_path_join "/archive"
          [slice 0 4 "20240517"; slice 4 6 "20240517"; slice 6 8 "20240517"])
       [name "/in/foo.pdf" 1]
     = with_sep "/archive" ++ slice 0 4 "20240517" ++ "/"
       ++ slice 4 6 "20240517" ++ "/" ++ slice 6 8 "20240517" ++ "/"
       ++ name "/in/foo.pdf" 1
  /\ name "/in/foo.pdf" 1
     = (if forallb (is_char ".") ("foo" : str)
        then ("foo" : str) ++ ".pdf" else ("foo" : str))
       ++ "_" ++ str_of_N 1 ++ ".pdf".
Proof.
  assert (7 <= length ("20240517" : str)) as Hlen by (simpl; lia).
  assert (no_sep (take 8 ("20240517" : str))) as Hsep
    by (vm_compute; reflexivity).
  assert (basename "/in/foo.pdf" = ("foo" : str) ++ ".pdf") as Hb
    by (vm_compute; reflexivity).
  assert (exists_ foo_archived "/archive/2024/05/17/foo.pdf" = true) as Hex
    by (vm_compute; reflexivity).
  assert (while_exists (S (S (size foo_archived))) foo_archived
            "/archive/2024/05/17" (splitext (basename "/in/foo.pdf")).1
            (os_path_join "/archive/2024/05/17" [basename "/in/foo.pdf"]) 1
          = Some ("/archive/2024/05/17/foo_1.pdf" : str)) as Hloop
    by (vm_compute; reflexivity).
  assert (1%N <> 0%N) as Hn by discriminate.
  split; [done|]. split; [|split].
  - exact (proj1 (destination_is_first_free_name foo_archived
                    "/archive" "20240517" "/in/foo.pdf")).
  - exact (proj1 (proj2 (proj2 (destination_is_first_free_name foo_archived
                                  "/archive" "20240517" "/in/foo.pdf")))
             Hlen Hsep 1%N).
  - exact (proj1 (proj2 (proj2 (proj2 (destination_is_first_free_name
                                         foo_archived "/archive" "20240517"
                                         "/in/foo.pdf"))))
             "foo" Hb 1%N Hn).
Defined.

(** [foo.pdf] is there: [foo_1.pdf]; that one is there too: [foo_2.pdf]. *)
Example foo_then_foo_1_then_foo_2 :
  let f1 : gmap str kind :=
    {[ ("/archive/2024/05/17/foo.pdf" : str) := File ]} in
  let f2 : gmap str kind :=
    <[ ("/archive/2024/05/17/foo_1.pdf" : str) := File ]> f1 in
  let loop (f : gmap str kind) :=
    while_exists (S (S (size f))) f "/archive/2024/05/17"
      (splitext (basename "/in/foo.pdf")).1
      (os_path_join "/archive/2024/05/17" [basename "/in/foo.pdf"]) 1 in
  loop ∅ = Some ("/archive/2024/05/17/foo.pdf" : str)
  /\ loop f1 = Some ("/archive/2024/05/17/foo_1.pdf" : str)
  /\ loop f2 = Some ("/archive/2024/05/17/foo_2.pdf" : str).
Proof. by vm_compute. Qed.

Definition prompt_world : world :=
  {| vars := initial_globals;
     fs := {[ ("/in/scan.pdf" : str) := File ]};
     stdin := [("/etc" : str)]; trace := [] |}.

(** Two destinations that are not root/YYYY/MM/DD/basename or
    root/YYYY/MM/DD/stem_N.pdf.  Nothing in the name or in the text of
    [/in/scan.pdf] gives a date and the user types [/etc] at the prompt: the
    run ends normally and the file is moved to [/etc/scan.pdf], outside the
    destination root [/archive].  The file [.pdf] is one that the scan
    enumerates; with [.pdf] in the day's folder it is placed as
    [.pdf_1.pdf]: the counter comes after the extension. *)
Lemma typed_stamp_leaves_destination_tree :
  (let r := main (text_env 0 "") demo_args prompt_world in
   exit_status r.1 = Some 0%Z
   /\ Input (prompt_text "/in/scan.pdf" "20240131") ∈ trace r.2
   /\ Move "/tmp/tmpq1w2e3/scan.pdf" "/etc/scan.pdf" ∈ trace r.2
   /\ fs r.2 !! ("/etc/scan.pdf" : str) = Some File
   /\ is_under "/archive" "/etc/scan.pdf" = false)
  /\ (fnmatch_pdf ".pdf" = true
      /\ name "/in/.pdf" 1 = ".pdf_1.pdf"
      /\ while_exists 3
           {[ ("/archive/2024/05/17/.pdf" : str) := File ]}
           "/archive/2024/05/17" (splitext (basename "/in/.pdf")).1
           (os_path_join "/archive/2024/05/17" [basename "/in/.pdf"]) 1
         = Some ("/archive/2024/05/17/.pdf_1.pdf" : str)).
Proof.
  split.
  - vm_compute. repeat split; try reflexivity;
      repeat first [apply list_elem_of_here | apply list_elem_of_further].
  - by vm_compute.
Qed.

(** ** The extension *)

Lemma is_LF_true c : is_LF c = true <-> c = "010"%char.
Proof. apply is_char_true. Qed.

(** A pattern that ends in [\.pdf$] matches only subjects that end in
    [.pdf], or in [.pdf] and one line feed. *)
Lemma den_ends_pdf rs : forall pos u rest g g',
  den (cats (rs ++ [lit ".pdf"; Eol])) pos u rest g g' ->
  ".pdf" `suffix_of` u /\ (rest = [] \/ rest = LF).
Proof.
  induction rs as [|r rs IH]; intros pos u rest g g' H.
  - cbn [app cats den] in H.
    destruct H as (u1 & u2 & g1 & -> & H1 & H).
    apply den_lit in H1 as [-> _].
    destruct H as (u3 & u4 & g2 & -> & (-> & _ & Hrest) & -> & _).
    split; [by exists []|].
    destruct Hrest as [?|(c & ? & ->%is_LF_true)]; auto.
  - cbn [app cats den] in H. destruct H as (u1 & u2 & g1 & -> & _ & H).
    apply IH in H as [[k ->] Hrest]. split; [|done].
    exists (u1 ++ k). by rewrite app_assoc.
Qed.

Lemma re_match_ends_pdf rs f m :
  re_match (cats (rs ++ [lit ".pdf"; Eol])) f = Some m ->
  ".pdf" `suffix_of` f \/ (".pdf" ++ LF) `suffix_of` f.
Proof.
  intros H. apply re_match_sound in H as (u & rest & -> & H & _).
  apply den_ends_pdf in H as [[k ->] [->| ->]].
  - left. exists k. by rewrite app_nil_r.
  - right. exists k. by rewrite <- app_assoc.
Qed.

Lemma extract_ends_pdf pad f stamp :
  extract_date_from_filename pad f = Some stamp ->
  ".pdf" `suffix_of` f \/ (".pdf" ++ LF) `suffix_of` f.
Proof.
  unfold extract_date_from_filename.
  destruct (re_match prefix_re f) as [m|] eqn:H1.
  { intros _. revert H1.
    apply (re_match_ends_pdf
             [Bol; Grp "1" (rep 8 (Chr isdigit));
              Chr (fun c => is_char "_" c || is_char "-" c); Star dot]). }
  destruct (re_match descriptive_re f) as [m|] eqn:H2; [|done].
  intros _. revert H2.
  apply (re_match_ends_pdf
           [Star dot; Chr isspace; chr "-"; Chr isspace;
            Star dot; Chr isspace; chr "-"; Chr isspace;
            Grp "1" (cats [plus isalpha; Chr isspace;
                           Chr isdigit; opt (Chr isdigit); chr ",";
                           Chr isspace; rep 4 (Chr isdigit)])]).
Qed.

Lemma patterns_end_pdf f :
  is_Some (re_match prefix_re f) \/ is_Some (re_match descriptive_re f) ->
  ".pdf" `suffix_of` f \/ (".pdf" ++ LF) `suffix_of` f.
Proof.
  intros [[m H]|[m H]]; revert H.
  - apply (re_match_ends_pdf
             [Bol; Grp "1" (rep 8 (Chr isdigit));
              Chr (fun c => is_char "_" c || is_char "-" c); Star dot]).
  - apply (re_match_ends_pdf
             [Star dot; Chr isspace; chr "-"; Chr isspace;
              Star dot; Chr isspace; chr "-"; Chr isspace;
              Grp "1" (cats [plus isalpha; Chr isspace;
                             Chr isdigit; opt (Chr isdigit); chr ",";
                             Chr isspace; rep 4 (Chr isdigit)])]).
Qed.

(** The enumeration keeps the names that end in [.pdf], and no other. *)
Lemma fnmatch_pdf_suffix name_ :
  fnmatch_pdf name_ = true <-> ".pdf" `suffix_of` name_.
Proof.
  unfold fnmatch_pdf. split.
  - destruct (re_match glob_re name_) as [m|] eqn:H; [|done]. intros _.
    apply re_match_sound in H as (u & rest & -> & H & _).
    unfold glob_re in H. cbn [cats den] in H.
    destruct H as (u1 & u2 & g1 & -> & _ & u3 & u4 & g2 & -> & H3 & H).
    apply den_lit in H3 as [-> _].
    destruct H as (u5 & u6 & g3 & -> & (-> & _ & Hrest) & -> & _).
    simpl in Hrest. subst rest. exists u1. by rewrite !app_nil_r.
  - intros [k ->].
    destruct (re_match_complete glob_re (k ++ ".pdf") [] []) as [m Hm].
    + unfold glob_re. cbn [cats den].
      exists k, (list_ascii_of_string ".pdf"), []. split; [done|].
      split; [split; [|done]; by apply forallb_forall|].
      exists (list_ascii_of_string ".pdf"), [], []. split; [done|].
      split; [by apply den_lit|].
      exists [], [], []. done.
    + rewrite app_nil_r in Hm. by rewrite Hm.
Qed.

Lemma glob_suffix E scan recursive p :
  p ∈ glob E scan recursive -> ".pdf" `suffix_of` basename p.
Proof.
  unfold glob. intros Hp. apply list_elem_of_filter in Hp as [Hp _].
  by apply fnmatch_pdf_suffix.
Qed.

(** C10.  Only files whose names end in lowercase [.pdf] are processed: the
    enumeration keeps a directory entry if and only if its name ends in
    [.pdf], and every OCR run and every removal of a whole run is on such a
    file.  No enumerated name ends in a line feed, and on a name that does
    not, each of the two file name patterns matches only if the name ends in
    [.pdf].  So a name in [.PDF], as [20240517_x.PDF], is not enumerated
    and is matched by neither pattern. *)
Theorem lowercase_pdf_only (E : env) (a : args) (w : world) (pad : bool) :
  (forall name_, fnmatch_pdf name_ = true <-> ".pdf" `suffix_of` name_)
  /\ (forall scan recursive p,
        p ∈ glob E scan recursive ->
        ".pdf" `suffix_of` basename p
        /\ endswith (basename p) "010" = false)
  /\ (exists t,
        trace (main E a w).2 = trace w ++ t
        /\ forall e, e ∈ t ->
             match e with
             | Ocrmypdf p _ _ | Remove p => ".pdf" `suffix_of` basename p
             | _ => True
             end)
  /\ (forall f,
        endswith f "010" = false ->
        is_Some (re_match prefix_re f) \/ is_Some (re_match descriptive_re f)
        -> ".pdf" `suffix_of` f)
  /\ (forall s,
        fnmatch_pdf (s ++ ".PDF") = false
        /\ re_match prefix_re (s ++ ".PDF") = None
        /\ re_match descriptive_re (s ++ ".PDF") = None
        /\ extract_date_from_filename pad (s ++ ".PDF") = None)
  /\ fnmatch_pdf "20240517_x.PDF" = false
  /\ re_match prefix_re "20240517_x.PDF" = None
  /\ extract_date_from_filename pad "20240517_x.PDF" = None.
Proof.
  assert (forall f,
    endswith f "010" = false ->
    is_Some (re_match prefix_re f) \/ is_Some (re_match descriptive_re f) ->
    ".pdf" `suffix_of` f) as Hpat.
  { intros f Hf Hm. destruct (patterns_end_pdf f Hm) as [H|[k ->]]; [done|].
    change (k ++ ".pdf" ++ LF) with (k ++ ".pdf" ++ ["010"%char]) in Hf.
    rewrite !app_assoc, endswith_snoc in Hf. done. }
  assert (forall s, ~ ".pdf" `suffix_of` (s ++ ".PDF")) as Hupper.
  { intros s [k Hk]. apply (f_equal (@rev ascii)) in Hk.
    rewrite !rev_app_distr in Hk. simpl in Hk. discriminate. }
  assert (forall s, endswith (s ++ ".PDF") "010" = false) as Hend.
  { intros s. change (s ++ ".PDF") with (s ++ ".PD" ++ ["F"%char]).
    by rewrite app_assoc, endswith_snoc. }
  split; [apply fnmatch_pdf_suffix|]. split; [|split; [|split; [done|split]]].
  - intros scan recursive p Hp. apply glob_suffix in Hp as Hs.
    split; [done|]. destruct Hs as [k ->].
    change (k ++ ".pdf") with (k ++ ".pd" ++ ["f"%char]).
    by rewrite app_assoc, endswith_snoc.
  - destruct (main_events E a w) as (files & t & Hfiles & Ht & HP).
    exists t. split; [done|]. intros e He.
    rewrite Forall_forall in HP. apply HP in He.
    destruct He as [[(fp & Hfp & He)|[d ->]]|[m ->]]; [|done..].
    apply Hfiles, fnmatch_pdf_suffix in Hfp.
    destruct e; simpl in He; try done; [by subst|by destruct He as [_ ->]].
  - intros s.
    assert (re_match prefix_re (s ++ ".PDF") = None) as H1.
    { destruct (re_match prefix_re (s ++ ".PDF")) eqn:H; [|done].
      destruct (Hupper s). apply Hpat; [done|]. left. by rewrite H. }
    assert (re_match descriptive_re (s ++ ".PDF") = None) as H2.
    { destruct (re_match descriptive_re (s ++ ".PDF")) eqn:H; [|done].
      destruct (Hupper s). apply Hpat; [done|]. right. by rewrite H. }
    split; [|split; [done|split; [done|]]].
    + destruct (fnmatch_pdf (s ++ ".PDF")) eqn:H; [|done].
      apply fnmatch_pdf_suffix in H. by destruct (Hupper s).
    + unfold extract_date_from_filename. by rewrite H1, H2.
  - by destruct pad; vm_compute.
Qed.

Lemma lowercase_pdf_only_witness :
  (endswith ("20240517_x.pdf" : str) "010" = false
   /\ is_Some (re_match prefix_re "20240517_x.pdf")
   /\ ("/in/scan.pdf" : str) ∈ glob (text_env 0 "") "/in" true)
  /\ ".pdf" `suffix_of` ("20240517_x.pdf" : str)
  /\ (".pdf" `suffix_of` basename "/in/scan.pdf"
      /\ endswith (basename "/in/scan.pdf") "010" = false).
Proof.
  assert (endswith ("20240517_x.pdf" : str) "010" = false) as Hend
    by reflexivity.
  assert (is_Some (re_match prefix_re "20240517_x.pdf")) as Hm
    by (vm_compute; eauto).
  assert (("/in/scan.pdf" : str) ∈ glob (text_env 0 "") "/in" true) as Hin
    by (vm_compute; apply list_elem_of_here).
  split; [done|]. split.
  - exact (proj1 (proj2 (proj2 (proj2 (lowercase_pdf_only (text_env 0 "") demo_args
                                         demo_world false))))
             "20240517_x.pdf" Hend (or_introl Hm)).
  - exact (proj1 (proj2 (lowercase_pdf_only (text_env 0 "") demo_args demo_world
                           false))
             "/in" true "/in/scan.pdf" Hin).
Defined.

(** Why the names are taken without a final line feed: [$] also matches
    before one, so the prefix pattern accepts a subject that ends in a line
    feed after [.pdf].  The enumeration never gives such a name. *)
Example line_feed_after_pdf_matches :
  extract_date_from_filename false ("20240517_x.pdf" ++ LF)
  = Some ("20240517" : str)
  /\ ~ ".pdf" `suffix_of` ("20240517_x.pdf" ++ LF)
  /\ fnmatch_pdf ("20240517_x.pdf" ++ LF) = false.
Proof.
  split; [by vm_compute|]. split; [|by vm_compute]. intros [k Hk].
  apply (f_equal (@rev ascii)) in Hk. rewrite (rev_app_distr k) in Hk.
  simpl in Hk. discriminate.
Qed.

(** * Further properties of the script *)

(** ** Every run ends

    [well_ended o]: the outcome is a return or an exception, and an exit
    requested through [sys.exit] has status 1.  [ends m]: [m] ends so from
    every world. *)

Definition well_ended {A} (o : outcome A) : Prop :=
  match o with
  | Hang => False
  | Raise (SystemExit status) => status = 1%Z
  | _ => True
  end.

Definition ends {A} (m : run A) : Prop := forall w, well_ended (m w).1.

Lemma ends_ret {A} (a : A) : ends (mret a).
Proof. by intros w. Qed.

Lemma ends_bind {A B} (m : run A) (f : A -> run B) :
  ends m -> (forall a, ends (f a)) -> ends (m ≫= f).
Proof.
  intros Hm Hf w. specialize (Hm w). unfold mbind, run_bind.
  destruct (m w) as [[a|e|] w1]; simpl in *; [apply Hf|done..].
Qed.

Lemma ends_try_finally {A} (body : run A) final :
  ends body -> ends final -> ends (try_finally body final).
Proof.
  intros Hb Hf w. specialize (Hb w). unfold try_finally.
  destruct (body w) as [[a|e|] w1]; simpl in *; [| |done];
    specialize (Hf w1); by destruct (final w1) as [[[]|e'|] w2].
Qed.

Lemma ends_for_each {A} (l : list A) body :
  (forall x, ends (body x)) -> ends (for_each l body).
Proof.
  intros Hb. induction l as [|x l IH]; simpl; [apply ends_ret|].
  apply ends_bind; [apply Hb|]. intros _. apply IH.
Qed.

Lemma ends_emit e : ends (emit e).
Proof. by intros w. Qed.

Lemma ends_input prompt : ends (input prompt).
Proof. intros w. unfold input. by destruct (stdin w). Qed.

Ltac ends_step :=
  first
    [ apply ends_ret | apply ends_emit | apply ends_input
    | (intros ?; done)
    | apply ends_bind; [|intros ?]
    | match goal with
      | |- ends (if ?b then _ else _) => destruct b
      | |- ends (match ?x with _ => _ end) => destruct x
      end ].

Ltac ends_auto := repeat ends_step.

Lemma ends_print msg :
  ends (debug_print msg) /\ ends (info_print msg) /\ ends (error_print msg).
Proof. unfold debug_print, info_print, error_print, get_vars. repeat split; ends_auto. Qed.

(** The prompt loop ends when it may go round once for every pending line:
    with an answer, or with [EOFError] at the end of standard input. *)
Lemma prompt_loop_ends E file_path_str suggested_date fuel : forall w,
  length (stdin w) <= fuel ->
  well_ended (prompt_loop E file_path_str suggested_date fuel w).1.
Proof.
  induction fuel as [|fuel IH]; intros w Hw; rewrite prompt_loop_unfold;
    destruct (stdin w) as [|line rest] eqn:Hin; try done; cbn zeta;
    destruct (bool_decide _); try done; simpl in Hw; [lia|].
  apply IH. simpl. lia.
Qed.

Lemma ends_ask_date E file_path_str : ends (ask_date E file_path_str).
Proof.
  intros w. unfold ask_date, mbind, run_bind. simpl.
  by apply prompt_loop_ends.
Qed.

Lemma ends_scan_lines E lines : forall d0, ends (scan_lines E d0 lines).
Proof.
  induction lines as [|line lines IH]; intros d0; simpl; [apply ends_ret|].
  destruct (truthy _); [|apply IH].
  apply ends_bind; [apply ends_print|]. intros _. apply ends_ret.
Qed.

Lemma ends_resolve_date E file_path_str ocr_file :
  ends (resolve_date E file_path_str ocr_file).
Proof.
  unfold resolve_date. apply ends_bind.
  - destruct (truthy _).
    + apply ends_bind; [apply ends_print|]. intros _. apply ends_ret.
    + apply ends_bind; [unfold run_pdftotext; ends_auto|].
      intros result. apply ends_scan_lines.
  - intros [[|c s]|]; first [apply ends_ret | apply ends_ask_date].
Qed.

Lemma ends_place dest_dir file_path_str ocr_file date_stamp :
  ends (place dest_dir file_path_str ocr_file date_stamp).
Proof.
  unfold place.
  apply ends_bind; [unfold makedirs, get_fs, set_fs, raise; ends_auto|].
  intros _. intros w. unfold mbind at 1, run_bind at 1, get_fs.
  lazy beta iota zeta.
  destruct (while_exists_first_free (fs w)
              (os_path_join dest_dir
                 [slice 0 4 date_stamp; slice 4 6 date_stamp;
                  slice 6 8 date_stamp]) file_path_str)
    as (n & Hn & _).
  change (name file_path_str 0) with (basename file_path_str) in Hn.
  rewrite Hn. clear Hn. revert w. apply ends_bind; [apply ends_print|]. intros _.
  unfold get_vars, shutil_move, os_remove, get_fs, set_fs, raise. ends_auto.
Qed.

Lemma ends_process_file E tmp_dir dest_dir file_path_str :
  ends (process_file E tmp_dir dest_dir file_path_str).
Proof.
  unfold process_file.
  apply ends_bind; [apply ends_print|]. intros _.
  apply ends_bind;
    [unfold run_ocrmypdf, get_fs, set_fs, raise; ends_auto|]. intros _.
  apply ends_bind; [apply ends_resolve_date|]. intros date_stamp.
  apply ends_place.
Qed.

Lemma ends_process_files E scan dest recursive :
  ends (process_files E scan dest recursive).
Proof.
  unfold process_files.
  apply ends_bind; [unfold tempfile_mkdtemp, get_fs, set_fs; ends_auto|].
  intros tmp_dir. apply ends_try_finally.
  - apply ends_for_each. intros file_path_str. apply ends_process_file.
  - unfold shutil_rmtree, get_fs, set_fs. ends_auto.
Qed.


(** ** The scratch folder *)


(** ** What a run leaves in place

    [fs_steps Iv Rf m]: [m] preserves the property [Iv] of the global
    variables and takes the file system to one related to it by [Rf]. *)

Definition fs_steps {A : Type} (Iv : globals -> Prop)
    (Rf : gmap str kind -> gmap str kind -> Prop) (m : run A) : Prop :=
  forall w, Iv (vars w) -> Iv (vars (m w).2) /\ Rf (fs w) (fs (m w).2).

Section FsSteps.
Variable Iv : globals -> Prop.
Variable Rf : gmap str kind -> gmap str kind -> Prop.
Hypothesis Rf_refl : forall f, Rf f f.
Hypothesis Rf_trans : forall f1 f2 f3, Rf f1 f2 -> Rf f2 f3 -> Rf f1 f3.

Lemma fs_steps_same {A} (m : run A) :
  (forall w, vars (m w).2 = vars w /\ fs (m w).2 = fs w) -> fs_steps Iv Rf m.
Proof. intros H w Hw. destruct (H w) as [-> ->]. auto. Qed.

Lemma fs_steps_ret {A} (a : A) : fs_steps Iv Rf (mret a).
Proof. by apply fs_steps_same. Qed.

Lemma fs_steps_emit e : fs_steps Iv Rf (emit e).
Proof. by apply fs_steps_same. Qed.

Lemma fs_steps_input prompt : fs_steps Iv Rf (input prompt).
Proof. apply fs_steps_same. intros w. unfold input. by destruct (stdin w). Qed.

Lemma fs_steps_bind {A B} (m : run A) (f : A -> run B) :
  fs_steps Iv Rf m -> (forall a, fs_steps Iv Rf (f a)) ->
  fs_steps Iv Rf (m ≫= f).
Proof.
  intros Hm Hf w Hw. destruct (Hm w Hw) as [Hv HR].
  unfold mbind, run_bind. destruct (m w) as [[a| |] w1]; simpl in *; auto.
  destruct (Hf a w1 Hv) as [Hv' HR']. eauto.
Qed.

Lemma fs_steps_try_finally {A} (body : run A) final :
  fs_steps Iv Rf body -> fs_steps Iv Rf final ->
  fs_steps Iv Rf (try_finally body final).
Proof.
  intros Hb Hf w Hw. destruct (Hb w Hw) as [Hv HR]. unfold try_finally.
  destruct (body w) as [o w1]; simpl in *.
  destruct (Hf w1 Hv) as [Hv' HR'].
  destruct o; destruct (final w1) as [[[]| |] w2]; simpl in *; eauto.
Qed.

Lemma fs_steps_for_each_in {A} (l : list A) body :
  (forall x, x ∈ l -> fs_steps Iv Rf (body x)) ->
  fs_steps Iv Rf (for_each l body).
Proof.
  induction l as [|x l IH]; intros Hb; simpl; [apply fs_steps_ret|].
  apply fs_steps_bind; [apply Hb, list_elem_of_here|]. intros _.
  apply IH. intros y Hy. by apply Hb, list_elem_of_further.
Qed.

Lemma fs_steps_print msg :
  fs_steps Iv Rf (debug_print msg) /\ fs_steps Iv Rf (info_print msg).
Proof.
  split; apply fs_steps_same; intros w;
    unfold debug_print, info_print, mbind, run_bind; simpl;
    by repeat case_match.
Qed.

Lemma fs_steps_prompt_loop E file_path_str suggested_date fuel :
  fs_steps Iv Rf (prompt_loop E file_path_str suggested_date fuel).
Proof.
  induction fuel as [|fuel IH]; simpl;
    (apply fs_steps_bind; [apply fs_steps_input|]; intros line);
    (destruct (bool_decide _); [|apply fs_steps_ret]);
    (apply fs_steps_bind;
       [destruct (open_command _ _); apply fs_steps_emit|intros _]);
    [by apply fs_steps_same|apply IH].
Qed.

Lemma fs_steps_scan_lines E lines : forall d0,
  fs_steps Iv Rf (scan_lines E d0 lines).
Proof.
  induction lines as [|line lines IH]; intros d0; simpl;
    [apply fs_steps_ret|].
  destruct (truthy _); [|apply IH].
  apply fs_steps_bind; [apply fs_steps_print|]. intros _. apply fs_steps_ret.
Qed.

(** The date resolver does not touch the file system. *)
Lemma fs_steps_resolve_date E file_path_str ocr_file :
  fs_steps Iv Rf (resolve_date E file_path_str ocr_file).
Proof.
  unfold resolve_date. apply fs_steps_bind.
  - destruct (truthy _).
    + apply fs_steps_bind; [apply fs_steps_print|]. intros _.
      apply fs_steps_ret.
    + apply fs_steps_bind; [|intros result; apply fs_steps_scan_lines].
      unfold run_pdftotext.
      apply fs_steps_bind; [apply fs_steps_emit|]. intros _.
      apply fs_steps_ret.
  - intros [[|c s]|]; try apply fs_steps_ret; unfold ask_date;
      (apply fs_steps_bind; [apply fs_steps_emit|]; intros _);
      (apply fs_steps_bind; [by apply fs_steps_same|]; intros pending);
      apply fs_steps_prompt_loop.
Qed.
End FsSteps.

(** *** The steps of the placement *)

Lemma makedirs_eq p w :
  makedirs p w
  = if forallb (fun q => negb (bool_decide (fs w !! q = Some File)))
         (parents p ++ [p])
    then (Ok tt, {| vars := vars w;
                    fs := foldl mkdir (fs w) (parents p ++ [p]);
                    stdin := stdin w; trace := trace w ++ [Makedirs p] |})
    else (Raise OSError, log w (Makedirs p)).
Proof.
  unfold makedirs, mbind, run_bind. simpl. by destruct (forallb _ _).
Qed.

Lemma shutil_move_eq src dst w :
  shutil_move src dst w
  = match fs w !! src with
    | Some k => (Ok tt, {| vars := vars w;
                           fs := <[dst := k]> (delete src (fs w));
                           stdin := stdin w;
                           trace := trace w ++ [Move src dst] |})
    | None => (Raise OSError, log w (Move src dst))
    end.
Proof.
  unfold shutil_move, mbind, run_bind. simpl. by destruct (fs w !! src).
Qed.

Lemma os_remove_eq p w :
  os_remove p w
  = match fs w !! p with
    | Some File => (Ok tt, {| vars := vars w; fs := delete p (fs w);
                              stdin := stdin w;
                              trace := trace w ++ [Remove p] |})
    | _ => (Raise OSError, log w (Remove p))
    end.
Proof.
  unfold os_remove, mbind, run_bind. simpl. by destruct (fs w !! p) as [[]|].
Qed.

Lemma place_eq dest_dir file_path_str ocr_file date_stamp w :
  let dest_folder :=
    os_path_join dest_dir
      [slice 0 4 date_stamp; slice 4 6 date_stamp; slice 6 8 date_stamp] in
  place dest_dir file_path_str ocr_file date_stamp w
  = match makedirs dest_folder w with
    | (Ok _, w1) =>
        match while_exists (S (S (size (fs w1)))) (fs w1) dest_folder
                (splitext (basename file_path_str)).1
                (os_path_join dest_folder [name file_path_str 0]) 1 with
        | Some dest_file =>
            let w2 := if INFO (vars w1)
                      then log w1 (Stdout ("[INFO] "
                                           ++ ("Moving processed file to "
                                               ++ dest_file)))
                      else w1 in
            if DRY_RUN (vars w1) then (Ok tt, w2)
            else (shutil_move ocr_file dest_file;;
                  os_remove file_path_str) w2
        | None => (Hang, w1)
        end
    | (Raise e, w1) => (Raise e, w1)
    | (Hang, w1) => (Hang, w1)
    end.
Proof.
  intros dest_folder. unfold place. fold dest_folder.
  change (name file_path_str 0) with (basename file_path_str).
  unfold mbind at 1, run_bind at 1.
  destruct (makedirs dest_folder w) as [[[]|e|] w1]; [|done..].
  unfold mbind at 1, run_bind at 1, get_fs. lazy beta iota zeta.
  destruct (while_exists _ _ _ _ _ _) as [dest_file|]; [|done].
  erewrite bind_ok by apply info_print_eq.
  unfold mbind at 1, run_bind at 1, get_vars. lazy beta iota zeta.
  destruct (INFO (vars w1)); cbn [vars log]; by destruct (DRY_RUN (vars w1)).
Qed.

Lemma mkdir_lookup (f : gmap str kind) (q p : str) (k : kind) :
  f !! p = Some k -> mkdir f q !! p = Some k.
Proof.
  intros H. unfold mkdir. destruct (f !! q) eqn:Hq; [done|].
  rewrite lookup_insert_ne; [done|]. intros ->. congruence.
Qed.

Lemma foldl_mkdir_lookup (qs : list str) : forall (f : gmap str kind) p k,
  f !! p = Some k -> foldl mkdir f qs !! p = Some k.
Proof.
  induction qs as [|q qs IH]; intros f p k H; simpl; [done|].
  by apply IH, mkdir_lookup.
Qed.

Lemma foldl_mkdir_new (qs : list str) : forall (f : gmap str kind) p,
  f !! p = None -> foldl mkdir f qs !! p = None \/ foldl mkdir f qs !! p = Some Dir.
Proof.
  induction qs as [|q qs IH]; intros f p H; simpl; [by left|].
  destruct (mkdir f q !! p) as [k|] eqn:Hk; [|by apply IH].
  right. apply foldl_mkdir_lookup. rewrite Hk. f_equal.
  unfold mkdir in Hk. destruct (f !! q) eqn:Hq; [congruence|].
  destruct (decide (q = p)) as [->|Hne].
  - rewrite lookup_insert_eq in Hk. congruence.
  - rewrite lookup_insert_ne in Hk by done. congruence.
Qed.

(** ** Nothing else is overwritten or removed

    [node_kept dry files tmp f f']: a node of [f] outside the scratch folder
    is a node of the same kind in [f'], unless, outside dry-run mode, it is
    one of the enumerated source files. *)

Definition node_kept (dry : bool) (files : list str) (tmp : str)
    (f f' : gmap str kind) : Prop :=
  forall p k, is_under tmp p = false -> f !! p = Some k ->
    f' !! p = Some k \/ (dry = false /\ p ∈ files).

Lemma node_kept_refl dry files tmp f : node_kept dry files tmp f f.
Proof. intros p k _ H. by left. Qed.

Lemma node_kept_trans dry files tmp f1 f2 f3 :
  node_kept dry files tmp f1 f2 -> node_kept dry files tmp f2 f3 ->
  node_kept dry files tmp f1 f3.
Proof.
  intros H12 H23 p k Hp H. destruct (H12 p k Hp H) as [H2|?]; [|by right].
  by apply H23.
Qed.

Lemma fs_steps_place (dry : bool) files tmp dest_dir file_path_str ocr_file
    date_stamp :
  is_under tmp ocr_file = true -> file_path_str ∈ files ->
  fs_steps (fun v => dry = DRY_RUN v) (node_kept dry files tmp)
    (place dest_dir file_path_str ocr_file date_stamp).
Proof.
  intros Hocr Hin w Hw. rewrite place_eq. cbn zeta. rewrite makedirs_eq.
  destruct (forallb _ _); [|split; [done|apply node_kept_refl]].
  set (f1 := foldl mkdir (fs w) _).
  set (w1 := {| vars := vars w; fs := f1; stdin := stdin w;
                trace := trace w ++ [Makedirs _] |}).
  assert (forall p k, fs w !! p = Some k -> f1 !! p = Some k) as H1
    by (intros p k; apply foldl_mkdir_lookup).
  destruct (while_exists_first_free f1
              (os_path_join dest_dir
                 [slice 0 4 date_stamp; slice 4 6 date_stamp;
                  slice 6 8 date_stamp]) file_path_str)
    as (n & Hn & Hfree & _).
  change (fs w1) with f1. rewrite Hn.
  set (dest_file := os_path_join _ [name file_path_str n]) in *.
  apply bool_decide_eq_false in Hfree.
  assert (f1 !! dest_file = None) as Hd
    by (destruct (f1 !! dest_file) eqn:?; [by destruct Hfree|done]).
  cbn zeta. set (w2 := if INFO (vars w1) then _ else _).
  assert (vars w2 = vars w /\ fs w2 = f1) as [Hv2 Hf2]
    by (subst w2; by destruct (INFO (vars w1))).
  change (DRY_RUN (vars w1)) with (DRY_RUN (vars w)). rewrite <- Hw.
  destruct dry.
  { cbn [snd]. rewrite Hv2, Hf2. split; [done|].
    intros p k _ Hp. left. by apply H1. }
  unfold mbind, run_bind. rewrite shutil_move_eq, Hf2.
  destruct (f1 !! ocr_file) as [k0|] eqn:Ho; cbn [snd log vars fs];
    [|rewrite Hv2, Hf2; split; [done|]; intros p k _ Hp; left; by apply H1].
  rewrite os_remove_eq. cbn [fs vars].
  assert (forall p k, is_under tmp p = false -> fs w !! p = Some k ->
                      (<[dest_file:=k0]> (delete ocr_file f1)) !! p = Some k)
    as H3.
  { intros p k Hp Hk. apply H1 in Hk.
    rewrite lookup_insert_ne by (intros ->; congruence).
    rewrite lookup_delete_ne by (intros ->; congruence). done. }
  destruct (_ !! file_path_str) as [[|]|]; cbn [snd log vars fs]; rewrite Hv2;
    (split; [done|]); intros p k Hp Hk;
    [|left; by apply H3..].
  destruct (decide (p = file_path_str)) as [->|Hne]; [by right|].
  left. rewrite lookup_delete_ne by done. by apply H3.
Qed.

(** The searchable copy of a file is made inside the scratch folder. *)
Lemma scratch_copy_under tmp file_path_str :
  tmp <> [] -> endswith tmp "/" = false ->
  is_under tmp (os_path_join tmp [basename file_path_str]) = true.
Proof.
  intros Hne Hend. unfold os_path_join. simpl.
  rewrite join_step_relative
    by apply no_sep_not_startswith, basename_no_sep.
  unfold with_sep. rewrite Hend. destruct tmp as [|c tmp]; [done|].
  unfold is_under. apply orb_true_iff. right. apply bool_decide_eq_true.
  exists (basename file_path_str). by rewrite <- !app_assoc.
Qed.

Section RunSteps.
Variables (dry : bool) (files : list str) (tmp : str).
Variable Rf : gmap str kind -> gmap str kind -> Prop.
Hypothesis Rf_refl : forall f, Rf f f.
Hypothesis Rf_trans : forall f1 f2 f3, Rf f1 f2 -> Rf f2 f3 -> Rf f1 f3.
Hypothesis Rf_insert : forall f q k, is_under tmp q = true -> Rf f (<[q := k]> f).
Hypothesis Rf_rmtree : forall f : gmap str kind,
  Rf f (filter (fun kv : str * kind => is_under tmp kv.1 = false) f).
Hypothesis Rf_place : forall dest_dir file_path_str ocr_file date_stamp,
  is_under tmp ocr_file = true -> file_path_str ∈ files ->
  fs_steps (fun v => dry = DRY_RUN v) Rf
    (place dest_dir file_path_str ocr_file date_stamp).
Hypothesis tmp_not_empty : tmp <> [].
Hypothesis tmp_no_sep_at_end : endswith tmp "/" = false.

Lemma fs_steps_process_file E dest_dir file_path_str :
  file_path_str ∈ files ->
  fs_steps (fun v => dry = DRY_RUN v) Rf
    (process_file E tmp dest_dir file_path_str).
Proof.
  intros Hin. unfold process_file.
  apply fs_steps_bind; [done|by apply fs_steps_print|]. intros _.
  apply fs_steps_bind; [done| |].
  { unfold run_ocrmypdf. intros w Hw. unfold mbind, run_bind. simpl.
    destruct (_ =? _)%Z; simpl; [|by split].
    split; [done|]. by apply Rf_insert, scratch_copy_under. }
  intros _. apply fs_steps_bind; [done|by apply fs_steps_resolve_date|].
  intros date_stamp. apply Rf_place; [by apply scratch_copy_under|done].
Qed.

Lemma fs_steps_process_files E scan dest recursive :
  tmp = mkdtemp E -> files = glob E scan recursive ->
  fs_steps (fun v => dry = DRY_RUN v) Rf (process_files E scan dest recursive).
Proof.
  intros Htmp Hfiles w Hw. unfold process_files.
  erewrite bind_ok
    by (unfold tempfile_mkdtemp, mbind, run_bind; simpl; reflexivity).
  rewrite <- Htmp, <- Hfiles.
  set (w0 := {| vars := vars w; fs := <[tmp := Dir]> (fs w);
                stdin := stdin w; trace := trace w |}).
  assert (fs_steps (fun v => dry = DRY_RUN v) Rf
            (try_finally (for_each files (process_file E tmp dest))
               (shutil_rmtree tmp))) as Hk.
  { apply fs_steps_try_finally; [done| |].
    - apply fs_steps_for_each_in; [done..|]. intros x Hx.
      by apply fs_steps_process_file.
    - intros w1 Hw1. unfold shutil_rmtree, mbind, run_bind. simpl.
      split; [done|]. apply Rf_rmtree. }
  destruct (Hk w0 Hw) as [Hv HR]. split; [done|].
  eapply Rf_trans; [|exact HR]. apply Rf_insert.
  unfold is_under. by rewrite bool_decide_eq_true_2.
Qed.
End RunSteps.


Definition scan_env (entries : list str) (text : str) : env :=
  {| which := fun _ => true; platform := "linux"; pad_year := false;
     getcwd := "/home/user"; mkdtemp := "/tmp/tmpq1w2e3";
     scandir := fun _ _ => entries;
     ocrmypdf := fun _ => 0%Z;
     pdftotext := fun _ => {| returncode := 0; stdout := text |};
     st_ctime := fun _ => {| year := 2024; month := 1; day := 31 |} |}.

Definition archive_world : world :=
  {| vars := initial_globals;
     fs := {[ ("/in/scan.pdf" : str) := File;
              ("/archive/2024/05/17/scan.pdf" : str) := File ]};
     stdin := []; trace := [] |}.




(** ** What a dry run changes

    [only_dirs_added tmp f f']: outside the scratch folder, [f'] has the
    nodes of [f], unchanged, and beside them only directories. *)

Definition only_dirs_added (tmp : str) (f f' : gmap str kind) : Prop :=
  forall p, is_under tmp p = false ->
    match f !! p with
    | Some k => f' !! p = Some k
    | None => f' !! p = None \/ f' !! p = Some Dir
    end.

Lemma only_dirs_added_refl tmp f : only_dirs_added tmp f f.
Proof. intros p _. destruct (f !! p); auto. Qed.

Lemma only_dirs_added_trans tmp f1 f2 f3 :
  only_dirs_added tmp f1 f2 -> only_dirs_added tmp f2 f3 ->
  only_dirs_added tmp f1 f3.
Proof.
  intros H12 H23 p Hp. specialize (H12 p Hp). specialize (H23 p Hp).
  destruct (f1 !! p) as [k|].
  - by rewrite H12 in H23.
  - destruct H12 as [H|H]; rewrite H in H23; auto.
Qed.

Lemma fs_steps_place_dry tmp dest_dir file_path_str ocr_file date_stamp :
  fs_steps (fun v => true = DRY_RUN v) (only_dirs_added tmp)
    (place dest_dir file_path_str ocr_file date_stamp).
Proof.
  intros w Hw. rewrite place_eq. cbn zeta. rewrite makedirs_eq.
  destruct (forallb _ _); [|split; [done|apply only_dirs_added_refl]].
  set (f1 := foldl mkdir (fs w) _).
  match goal with |- context [while_exists ?n ?f ?d ?s ?x ?c] =>
    destruct (while_exists n f d s x c) end;
    cbn [snd vars fs]; [|split; [done|]].
  - rewrite <- Hw. cbn [snd]. destruct (INFO (vars w)); cbn [vars fs log];
      (split; [done|]); intros p _; (destruct (fs w !! p) as [k|] eqn:Hp;
        [by apply foldl_mkdir_lookup|by apply foldl_mkdir_new]).
  - intros p _. destruct (fs w !! p) as [k|] eqn:Hp;
      [by apply foldl_mkdir_lookup|by apply foldl_mkdir_new].
Qed.



(** ** The prompt *)

Lemma prompt_loop_rounds E file_path_str suggested_date (opens : list str) :
  forall fuel w (line : str) (rest : list str),
    length opens <= fuel ->
    stdin w = opens ++ line :: rest ->
    Forall (fun l : str => map lower l = "o") opens ->
    map lower line <> "o" ->
    prompt_loop E file_path_str suggested_date fuel w
    = (Ok (match line with [] => suggested_date | _ => line end),
       {| vars := vars w; fs := fs w; stdin := rest;
          trace := trace w
            ++ concat (map (fun _ : str =>
                              [Input (prompt_text file_path_str suggested_date);
                               open_event E file_path_str]) opens)
            ++ [Input (prompt_text file_path_str suggested_date)] |}).
Proof.
  induction opens as [|o opens IH]; intros fuel w line rest Hfuel Hin Ho Hline;
    rewrite prompt_loop_unfold, Hin; simpl; cbn zeta.
  - by rewrite bool_decide_eq_false_2.
  - apply Forall_cons in Ho as [Ho Hos].
    rewrite bool_decide_eq_true_2 by done.
    destruct fuel as [|fuel]; [simpl in Hfuel; lia|].
    rewrite (IH fuel _ line rest); [|simpl in Hfuel; lia|done..].
    simpl. by rewrite <- !app_assoc.
Qed.



(** ** Names that carry no date *)



(** ** Log levels *)

(** Below the level [info] the messages of [info_print] and [debug_print]
    are dropped. *)
Definition quiet (v : globals) : Prop := INFO v = false /\ DEBUG v = false.

(** The one line that the script prints without asking the level. *)
Definition quiet_event (e : event) : Prop :=
  match e with
  | Stdout m => m = "Unsupported platform for opening files"
  | _ => True
  end.

Lemma keeps_quiet_print (msg : str) :
  keeps quiet quiet_event (debug_print msg)
  /\ keeps quiet quiet_event (info_print msg).
Proof.
  split; unfold debug_print, info_print; apply keeps_with_vars;
    intros v [Hi Hd]; rewrite ?Hi, ?Hd; apply keeps_ret.
Qed.

Lemma keeps_quiet_scan_lines E lines : forall d0,
  keeps quiet quiet_event (scan_lines E d0 lines).
Proof.
  induction lines as [|line lines IH]; intros d0; simpl.
  - apply keeps_ret.
  - destruct (truthy _); [|apply IH].
    apply keeps_bind; [apply keeps_quiet_print|]. intros _. apply keeps_ret.
Qed.

Lemma keeps_quiet_prompt_loop E file_path_str suggested_date fuel :
  keeps quiet quiet_event (prompt_loop E file_path_str suggested_date fuel).
Proof.
  induction fuel as [|fuel IH]; simpl;
    (apply keeps_bind; [by apply keeps_input|]; intros line);
    (destruct (bool_decide _); [|apply keeps_ret]);
    (apply keeps_bind; [|intros _; first [apply keeps_hang|apply IH]]);
    by destruct (open_command _ _); apply keeps_emit.
Qed.

Lemma keeps_quiet_process_file E tmp_dir dest_dir file_path_str :
  keeps quiet quiet_event (process_file E tmp_dir dest_dir file_path_str).
Proof.
  unfold process_file.
  apply keeps_bind; [apply keeps_quiet_print|]. intros _.
  apply keeps_bind; [by apply keeps_run_ocrmypdf|]. intros _.
  apply keeps_bind.
  - unfold resolve_date. apply keeps_bind.
    + destruct (truthy _).
      * apply keeps_bind; [apply keeps_quiet_print|]. intros _.
        apply keeps_ret.
      * apply keeps_bind; [unfold run_pdftotext; keeps_auto|].
        intros result. apply keeps_quiet_scan_lines.
    + intros [[|c s]|]; try apply keeps_ret;
        unfold ask_date;
        (apply keeps_bind; [by apply keeps_emit|]; intros _);
        (apply keeps_bind; [apply keeps_get_stdin|]; intros pending);
        apply keeps_quiet_prompt_loop.
  - intros date_stamp. unfold place.
    apply keeps_bind; [by apply keeps_makedirs|]. intros _.
    apply keeps_bind; [apply keeps_get_fs|]. intros f.
    destruct (while_exists _ _ _ _ _ _) as [dest_file|]; [|apply keeps_hang].
    apply keeps_bind; [apply keeps_quiet_print|]. intros _.
    unfold shutil_move, os_remove. keeps_auto.
Qed.


Definition quiet_args : args :=
  {| scan_dir := Some ("/in" : str); dest_dir := "/archive";
     log_level := warning; dry_run := false |}.

